(** * DeepSeek OCR demo: a shallow embedding of the OCR dispatcher,
      the image loader and the upload validator.

    The development follows the Python sources:
    - [app/utils/image_processor.py]  (section [ImageProcessor])
    - [app/ocr/deepseek_ocr.py]       (section [DeepSeekOCR])
    - [app/utils/validation.py]       (module [Validation])

    Conventions of the embedding.
    - Python [str] is [string]; texts are taken to be ASCII, so that
      [str.lower], [str.strip] and [len] act byte-wise.
    - Python [int] is [Z].  Python [float] is modelled by exact rationals
      [Q]: the values the code manipulates are confidences, their sums and
      means and scale factors; no binary rounding is modelled.
    - A Python [dict] with string keys is a [gmap string value].
    - Exceptions are values of type [exn]; a call either returns or raises
      ([outcome]).  The dispatcher additionally records which engine steps
      it attempts ([M], a writer over [outcome]).
    - Pillow, OpenCV, the language model, EasyOCR and Tesseract are not part
      of the repository: they are oracles, fields of the records [Imaging]
      and [Engines], which may return any value or raise. *)

From Stdlib Require Import ZArith QArith Qround Qabs Lqa String Ascii List Lia DecimalString.
From Stdlib.Strings Require Import Byte.
From stdpp Require Import gmap strings list fin_maps.

Local Open Scope Z_scope.

(** ** Exceptions and outcomes *)

Inductive exn_class :=
| ImportError
| OCRError
| ModelError
| ImageProcessingError
| ZeroDivisionError
| ValueError
| RuntimeError.

(** An exception object: its class and [str(e)]. *)
Record exn := Exn { exn_class_of : exn_class; exn_msg : string }.

Inductive outcome (A : Type) :=
| Returned (a : A)
| Raised (e : exn).
Arguments Returned {A} a.
Arguments Raised {A} e.

#[global] Instance outcome_ret : MRet outcome := fun A a => Returned a.
#[global] Instance outcome_bind : MBind outcome := fun A B f m =>
  match m with
  | Returned a => f a
  | Raised e => Raised e
  end.

Definition raise {A} (c : exn_class) (msg : string) : outcome A :=
  Raised (Exn c msg).

(** [try: body  except Exception as e: handler(e)] *)
Definition try_except {A} (body : outcome A) (handler : exn -> outcome A) : outcome A :=
  match body with
  | Returned a => Returned a
  | Raised e => handler e
  end.

(** ** Python primitives *)

(** [str(n)] and the [{n}] of an f-string, for an [int]. *)
Definition str_of_int (n : Z) : string := NilZero.string_of_int (Z.to_int n).

(** [a / b] on two [int]s: true division, raising on a zero divisor. *)
Definition truediv (a b : Z) : outcome Q :=
  if b =? 0 then raise ZeroDivisionError "division by zero"
  else mret (inject_Z a / inject_Z b)%Q.

(** [int(x)] for a float [x]: truncation towards zero. *)
Definition py_int (x : Q) : Z :=
  if Qle_bool 0 x then Qfloor x else Qceiling x.

(** [str.isspace] on one ASCII character: TAB, LF, VT, FF, CR, the four
    separators FS, GS, RS, US, and the space. *)
Definition is_space (c : ascii) : bool :=
  let n := nat_of_ascii c in
  ((9 <=? n)%nat && (n <=? 13)%nat) || ((28 <=? n)%nat && (n <=? 32)%nat).

Fixpoint lstrip (s : string) : string :=
  match s with
  | EmptyString => EmptyString
  | String c s' => if is_space c then lstrip s' else s
  end.

Fixpoint rstrip (s : string) : string :=
  match s with
  | EmptyString => EmptyString
  | String c s' =>
      match rstrip s' with
      | EmptyString => if is_space c then EmptyString else String c EmptyString
      | r => String c r
      end
  end.

(** [s.strip()] *)
Definition strip (s : string) : string := rstrip (lstrip s).

(** [sep.join(parts)] *)
Definition join (sep : string) (parts : list string) : string :=
  String.concat sep parts.

(** [needle in haystack] on strings. *)
Fixpoint contains (needle haystack : string) : bool :=
  String.prefix needle haystack ||
  match haystack with
  | EmptyString => false
  | String _ rest => contains needle rest
  end.

(** ** Images *)

(** A [PIL.Image.Image]: [size] is [(width, height)]; [format] is [None]
    for an image that was not read from a file; [pixels] is the sample
    buffer, on which only the oracles depend. *)
Record Image := {
  size : Z * Z;
  mode : string;
  format : option string;
  pixels : list N
}.

(** The imaging libraries, as far as [ImageProcessor] calls them. *)
Record Imaging := {
  (** [os.path.exists] *)
  path_exists : string -> bool;
  (** [Image.open] *)
  image_open : string -> outcome Image;
  (** the samples of [image.convert(mode)] *)
  convert_samples : Image -> string -> outcome (list N);
  (** the samples of [image.resize(size, LANCZOS)] *)
  resize_samples : Image -> Z * Z -> outcome (list N);
  (** the samples after CLAHE on the L channel (OpenCV) *)
  clahe_samples : Image -> outcome (list N);
  (** the samples after [cv2.fastNlMeansDenoisingColored] *)
  denoise_samples : Image -> outcome (list N)
}.

(** The part of [OCRConfig] read by [ImageProcessor]. *)
Record PreprocessingConfig := {
  enabled : bool;
  resize : bool;
  denoise : bool;
  enhance_contrast : bool
}.

Record OCRConfig := {
  max_image_size : Z;
  preprocessing : PreprocessingConfig
}.

Section ImageProcessor.
Variable lib : Imaging.
Variable config_ocr : OCRConfig.

(** [self.max_size = config.ocr.max_image_size] *)
Definition max_size : Z := max_image_size config_ocr.

(** [image.convert(m)]: a new image of the same size in mode [m]. *)
Definition image_convert (image : Image) (m : string) : outcome Image :=
  px ← convert_samples lib image m;
  mret {| size := size image; mode := m; format := None; pixels := px |}.

(** [image.resize(new_size, Image.Resampling.LANCZOS)]: Pillow rejects a
    target with a dimension below 1 ("height and width must be > 0");
    otherwise the result has the requested size and the same mode. *)
Definition image_resize (image : Image) (new_size : Z * Z) : outcome Image :=
  if (fst new_size <? 1) || (snd new_size <? 1)
  then raise ValueError "height and width must be > 0"
  else
    px ← resize_samples lib image new_size;
    mret {| size := new_size; mode := mode image; format := None; pixels := px |}.

(** [image.copy()] *)
Definition image_copy (image : Image) : Image :=
  {| size := size image; mode := mode image; format := None; pixels := pixels image |}.

(** [Image.fromarray(a)] for an RGB array of the shape of [image]. *)
Definition image_fromarray (image : Image) (px : list N) : Image :=
  {| size := size image; mode := "RGB"; format := None; pixels := px |}.

Definition _resize_image (image : Image) (max_size : Z) : outcome Image :=
  let '(width, height) := size image in
  if Z.max width height <=? max_size then mret image
  else
    new_size ←
      (if width >? height then
         q ← truediv (height * max_size) width;
         mret (max_size, py_int q)
       else
         q ← truediv (width * max_size) height;
         mret (py_int q, max_size));
    image_resize image new_size.

Definition load_image (image_path : string) : outcome Image :=
  try_except
    (if negb (path_exists lib image_path)
     then raise ImageProcessingError ("Image file not found: " +:+ image_path)
     else
       image ← image_open lib image_path;
       image ← (if negb (String.eqb (mode image) "RGB")
                then image_convert image "RGB" else mret image);
       image ← (if Z.max (fst (size image)) (snd (size image)) >? max_size
                then _resize_image image max_size else mret image);
       mret image)
    (fun e => raise ImageProcessingError ("Image loading failed: " +:+ exn_msg e)).

Definition _optimize_size (image : Image) : outcome Image :=
  let '(width, height) := size image in
  let min_size := 1000 in
  if Z.max width height <? min_size then
    scale_factor ← truediv min_size (Z.max width height);
    let new_width := py_int (inject_Z width * scale_factor)%Q in
    let new_height := py_int (inject_Z height * scale_factor)%Q in
    image_resize image (new_width, new_height)
  else mret image.

Definition _enhance_contrast (image : Image) : outcome Image :=
  try_except
    (px ← clahe_samples lib image; mret (image_fromarray image px))
    (fun _ => mret image).

Definition _denoise_image (image : Image) : outcome Image :=
  try_except
    (px ← denoise_samples lib image; mret (image_fromarray image px))
    (fun _ => mret image).

Definition preprocess_image (image : Image) : outcome Image :=
  try_except
    (let processed_image := image_copy image in
     processed_image ← (if resize (preprocessing config_ocr)
                        then _optimize_size processed_image else mret processed_image);
     processed_image ← (if enhance_contrast (preprocessing config_ocr)
                        then _enhance_contrast processed_image else mret processed_image);
     processed_image ← (if denoise (preprocessing config_ocr)
                        then _denoise_image processed_image else mret processed_image);
     mret processed_image)
    (fun e => raise ImageProcessingError ("Preprocessing failed: " +:+ exn_msg e)).

End ImageProcessor.

(** ** Dictionaries *)

(** The values stored in the result dictionaries. *)
Inductive value :=
| VStr (s : string)
| VFloat (x : Q)
| VInt (n : Z)
| VBool (b : bool)
| VSize (wh : Z * Z).

(** A dict literal [{k1: v1, ...}]. *)
Definition dict_of (items : list (string * value)) : gmap string value :=
  list_to_map items.

(** [d.update(other)]: the keys of [other] win. *)
Definition dict_update (d other : gmap string value) : gmap string value :=
  other ∪ d.

(** [d.get(key) == s] for a string [s]. *)
Definition get_is (d : gmap string value) (key s : string) : bool :=
  match d !! key with
  | Some (VStr v) => String.eqb v s
  | _ => false
  end.

(** ** The dispatcher monad: outcomes with the engine steps attempted *)

Inductive step := LocalModel | RemoteAPI | EasyOCR | Tesseract | Placeholder.

#[global] Instance step_eq_dec : EqDecision step.
Proof. solve_decision. Defined.

Record M (A : Type) := Run { outcome_of : outcome A; attempts : list step }.
Arguments Run {A} _ _.
Arguments outcome_of {A} _.
Arguments attempts {A} _.

#[global] Instance M_ret : MRet M := fun A a => Run (Returned a) [].
#[global] Instance M_bind : MBind M := fun A B f m =>
  match outcome_of m with
  | Returned a => Run (outcome_of (f a)) (attempts m ++ attempts (f a))
  | Raised e => Run (Raised e) (attempts m)
  end.

(** A call that attempts no engine. *)
Definition lift {A} (o : outcome A) : M A := Run o [].

(** Entering an engine step. *)
Definition attempt (s : step) : M unit := Run (Returned tt) [s].

Definition raiseM {A} (c : exn_class) (msg : string) : M A := lift (raise c msg).

Definition try_exceptM {A} (body : M A) (handler : exn -> M A) : M A :=
  match outcome_of body with
  | Returned a => body
  | Raised e => Run (outcome_of (handler e)) (attempts body ++ attempts (handler e))
  end.

(** ** Rounding *)

(** The integer nearest to [x], ties to the even one. *)
Definition round_half_even (x : Q) : Z :=
  let f := Qfloor x in
  match (x - inject_Z f ?= 1 # 2)%Q with
  | Lt => f
  | Gt => f + 1
  | Eq => if Z.even f then f else f + 1
  end.

(** [round(x, 2)] *)
Definition py_round2 (x : Q) : Q := (inject_Z (round_half_even (x * 100)) / 100)%Q.

(** ** The OCR engines *)

(** One EasyOCR detection: [(bbox, text, confidence)]. *)
Definition detection : Type := list (Z * Z) * string * Q.

Record Engines := {
  (** [tokenizer.apply_chat_template], [model.generate] and
      [tokenizer.decode] on the image and the prompt *)
  local_generate : Image -> string -> outcome string;
  (** [import easyocr] and [easyocr.Reader(['en']).readtext(image, detail=1)] *)
  easyocr_readtext : Image -> outcome (list detection);
  (** [import pytesseract] and [pytesseract.image_to_string(image, config='--psm 6')] *)
  tesseract_image_to_string : Image -> outcome string
}.

Record ModelConfig := {
  name : string;
  use_local : bool;
  local_path : string;
  precision : string
}.
Record APIConfig := { deepseek_api_key : string }.
Record Config := { model : ModelConfig; api : APIConfig; ocr : OCRConfig }.

(** The fields of a [DeepSeekOCR] object that [extract_text] reads;
    [model_loaded] and [tokenizer_loaded] are the truth values of
    [self.model] and [self.tokenizer]. *)
Record DeepSeekOCR := {
  config : Config;
  model_loaded : bool;
  tokenizer_loaded : bool
}.

(** The model hub, as far as [_load_local_model] calls it. *)
Record Transformers := {
  (** [os.path.exists(model_path)] *)
  model_path_exists : string -> bool;
  (** [AutoTokenizer.from_pretrained(model_path, ...)] *)
  tokenizer_from_pretrained : string -> outcome unit;
  (** [AutoModelForCausalLM.from_pretrained(model_path, ...)], with the
      keyword arguments chosen by the precision *)
  model_from_pretrained : string -> string -> outcome unit;
  (** [self.model.eval()] *)
  model_eval : outcome unit
}.

Definition set_use_local (self : DeepSeekOCR) (b : bool) : DeepSeekOCR :=
  let cfg := config self in
  {| config :=
       {| model := {| name := name (model cfg); use_local := b;
                      local_path := local_path (model cfg);
                      precision := precision (model cfg) |};
          api := api cfg; ocr := ocr cfg |};
     model_loaded := model_loaded self;
     tokenizer_loaded := tokenizer_loaded self |}.

Definition set_tokenizer (self : DeepSeekOCR) : DeepSeekOCR :=
  {| config := config self; model_loaded := model_loaded self; tokenizer_loaded := true |}.

Definition set_model (self : DeepSeekOCR) : DeepSeekOCR :=
  {| config := config self; model_loaded := true;
     tokenizer_loaded := tokenizer_loaded self |}.

(** [_load_local_model]: the outcome and the object as the call leaves it;
    every failure is re-raised as [ModelError]. *)
Definition _load_local_model (hub : Transformers) (self : DeepSeekOCR)
  : outcome unit * DeepSeekOCR :=
  let failed e := raise ModelError ("Local model loading failed: " +:+ exn_msg e) in
  let model_path := local_path (model (config self)) in
  if negb (model_path_exists hub model_path)
  then (failed (Exn ModelError ("Model path not found: " +:+ model_path)), self)
  else
    match tokenizer_from_pretrained hub model_path with
    | Raised e => (failed e, self)
    | Returned _ =>
        let self := set_tokenizer self in
        match model_from_pretrained hub model_path (precision (model (config self))) with
        | Raised e => (failed e, self)
        | Returned _ =>
            let self := set_model self in
            match model_eval hub with
            | Raised e => (failed e, self)
            | Returned _ => (mret tt, self)
            end
        end
    end.

(** [_initialize_model]: a failed load switches [use_local] off, with or
    without an API key. *)
Definition _initialize_model (hub : Transformers) (self : DeepSeekOCR) : DeepSeekOCR :=
  if use_local (model (config self)) then
    let '(loaded, self) := _load_local_model hub self in
    match loaded with
    | Returned _ => self
    | Raised _ => set_use_local self false
    end
  else self.

(** [DeepSeekOCR.__init__] *)
Definition DeepSeekOCR_init (hub : Transformers) (config : Config) : DeepSeekOCR :=
  _initialize_model hub {| config := config; model_loaded := false; tokenizer_loaded := false |}.

Definition LF : string := String "010"%char EmptyString.

(** Truth value of a [str]. *)
Definition truthy (s : string) : bool := negb (String.eqb s "").

Definition default_prompt : string :=
  "Extract all text from this image. Provide the text exactly as it appears, maintaining formatting and structure.".

(** [repr] of the pair [image.size]. *)
Definition repr_size (wh : Z * Z) : string :=
  "(" +:+ str_of_int (fst wh) +:+ ", " +:+ str_of_int (snd wh) +:+ ")".

Definition demo_text_head : string :=
  "OCR Processing Failed" +:+ LF +:+ "            " +:+ LF +:+
  "All OCR methods were attempted but none could extract text from this image.

Image Details:
- Dimensions: ".

Definition demo_text_tail : string :=
  "

Attempted Methods:
1. ✗ DeepSeek API (not supported yet)
2. ✗ EasyOCR (no text found with sufficient confidence)
3. ✗ Tesseract (no text detected or not installed)

Possible reasons:
- Image may not contain readable text
- Text might be too small, blurry, or in a complex layout
- Handwritten text is harder to recognize
- Image quality might be too low

Suggestions:
- Try a clearer, higher resolution image
- Ensure text is clearly visible and readable
- Use images with printed (not handwritten) text
- Check if the image actually contains text".

Definition api_notice_head : string :=
  "API Limitation Notice:

DeepSeek's current API does not support image processing/vision capabilities yet.

To use OCR functionality, you have these options:

1. **Use Local Model** (Recommended):
   - Download the DeepSeek-VL model
   - Set USE_LOCAL_MODEL=true in your .env file
   - Requires ~14GB of disk space and GPU/CPU resources

2. **Use Alternative OCR**:
   - Install EasyOCR: pip install easyocr
   - Or use Tesseract OCR for basic text extraction

3. **Wait for API Update**:
   - DeepSeek may add vision capabilities to their API in the future

For now, the application is running in demonstration mode.
Your image was uploaded successfully but cannot be processed via API.

Original prompt: ".

Section DeepSeekOCR.
Variable lib : Imaging.
Variable engines : Engines.
Variable self : DeepSeekOCR.

Definition _extract_text_local (image : Image) (prompt : option string)
  : M (gmap string value) :=
  attempt LocalModel;;
  try_exceptM
    (if negb (model_loaded self) || negb (tokenizer_loaded self)
     then raiseM ModelError "Local model not initialized"
     else
       let prompt := default default_prompt prompt in
       response ← lift (local_generate engines image prompt);
       mret (dict_of [("text", VStr (strip response));
                      ("confidence", VFloat 1);
                      ("method", VStr "deepseek_local")]))
    (fun e => raiseM OCRError ("Local OCR processing failed: " +:+ exn_msg e)).

Definition demo_text (image : Image) : string :=
  let '(width, height) := size image in
  demo_text_head +:+ str_of_int width +:+ " x " +:+ str_of_int height +:+
  " pixels" +:+ LF +:+ "- Color mode: " +:+ mode image +:+ LF +:+ "- Format: " +:+
  (match format image with
   | Some f => if truthy f then f else "Unknown"
   | None => "Unknown"
   end) +:+ demo_text_tail.

Definition _extract_text_demo (image : Image) (prompt : option string)
  : M (gmap string value) :=
  attempt Placeholder;;
  try_exceptM
    (mret (dict_of [("text", VStr (strip (demo_text image)));
                    ("confidence", VFloat 0);
                    ("method", VStr "demo_mode");
                    ("warning", VStr "Demo mode active - please configure model or API for real OCR")]))
    (fun e => raiseM OCRError ("Demo mode processing failed: " +:+ exn_msg e)).

Definition _extract_text_api (image : Image) (prompt : option string)
  : M (gmap string value) :=
  attempt RemoteAPI;;
  try_exceptM
    (if negb (truthy (deepseek_api_key (api (config self))))
     then raiseM OCRError "DeepSeek API key not configured"
     else
       let prompt := default default_prompt prompt in
       mret (dict_of [("text", VStr (api_notice_head +:+ prompt +:+ LF +:+
                                      "Image size: " +:+ repr_size (size image) +:+ LF +:+
                                      "Image mode: " +:+ mode image));
                      ("confidence", VFloat 0);
                      ("method", VStr "api_limitation");
                      ("warning", VStr "DeepSeek API does not currently support image processing")]))
    (fun e =>
       mret (dict_of [("text", VStr ("API Error: " +:+ exn_msg e +:+ LF +:+ LF +:+
                                      "Please use local model for image processing."));
                      ("confidence", VFloat 0);
                      ("method", VStr "api_error");
                      ("error", VStr (exn_msg e))])).

(** The loop over the EasyOCR detections: the state is
    [(text_parts, total_confidence, valid_results)]. *)
Definition easyocr_accumulate (results : list detection) : list string * Q * Z :=
  fold_left
    (fun '(text_parts, total_confidence, valid_results) '(bbox, text, confidence) =>
       if Qlt_le_dec 0.3 confidence
       then (text_parts ++ [text], (total_confidence + confidence)%Q, valid_results + 1)
       else (text_parts, total_confidence, valid_results))
    results ([], 0%Q, 0).

(** The EasyOCR block of [_extract_text_fallback]: [Some d] when the
    block returns [d] from the function, [None] when control falls
    through to the next block. *)
Definition easyocr_block (image : Image) : M (option (gmap string value)) :=
  attempt EasyOCR;;
  try_exceptM
    (results ← lift (easyocr_readtext engines image);
     let '(text_parts, total_confidence, valid_results) := easyocr_accumulate results in
     if bool_decide (text_parts ≠ []) then
       let extracted_text := join LF text_parts in
       let avg_confidence :=
         if 0 <? valid_results then (total_confidence / inject_Z valid_results)%Q else 0%Q in
       let n := Z.of_nat (length text_parts) in
       mret (Some (dict_of
         [("text", VStr (strip extracted_text));
          ("confidence", VFloat (py_round2 avg_confidence));
          ("method", VStr "easyocr_fallback");
          ("note", VStr ("Using EasyOCR - extracted " +:+ str_of_int n +:+ " text segments"));
          ("segments_found", VInt n)]))
     else mret None)
    (fun _ => mret None).

(** The Tesseract block, in the same way. *)
Definition tesseract_block (image : Image) : M (option (gmap string value)) :=
  attempt Tesseract;;
  try_exceptM
    (extracted_text ← lift (tesseract_image_to_string engines image);
     if truthy (strip extracted_text) then
       mret (Some (dict_of
         [("text", VStr (strip extracted_text));
          ("confidence", VFloat 0.7);
          ("method", VStr "tesseract_fallback");
          ("note", VStr "Using Tesseract as fallback OCR engine");
          ("character_count", VInt (Z.of_nat (String.length (strip extracted_text))))]))
     else mret None)
    (fun _ => mret None).

Definition _extract_text_fallback (image : Image) (prompt : option string)
  : M (gmap string value) :=
  try_exceptM
    (r ← easyocr_block image;
     match r with
     | Some d => mret d
     | None =>
         r ← tesseract_block image;
         match r with
         | Some d => mret d
         | None => _extract_text_demo image prompt
         end
     end)
    (fun _ => _extract_text_demo image prompt).

(** The API branch of [extract_text]: the inner [try] covers the API call
    and the fallback started on a limitation notice. *)
Definition api_branch (api_call fallback : M (gmap string value))
  : M (gmap string value) :=
  try_exceptM
    (result ← api_call;
     if get_is result "method" "api_limitation" then fallback else mret result)
    (fun _ => fallback).

Definition extract_text (image_path : string) (prompt : option string)
  : M (gmap string value) :=
  let cfg := config self in
  try_exceptM
    (image ← lift (load_image lib (ocr cfg) image_path);
     image ← (if enabled (preprocessing (ocr cfg))
              then lift (preprocess_image lib (ocr cfg) image) else mret image);
     result ←
       (if use_local (model cfg) && model_loaded self && tokenizer_loaded self
        then _extract_text_local image prompt
        else if negb (use_local (model cfg)) && truthy (deepseek_api_key (api cfg))
        then api_branch (_extract_text_api image prompt)
                        (_extract_text_fallback image prompt)
        else _extract_text_fallback image prompt);
     mret (dict_update result (dict_of
       [("image_path", VStr image_path);
        ("image_size", VSize (size image));
        ("model_used", VStr (name (model cfg)));
        ("processing_method", VStr (if use_local (model cfg) then "local" else "api"))])))
    (fun e => raiseM OCRError ("Text extraction failed: " +:+ exn_msg e)).

(** The failure record appended by [batch_extract_text]. *)
Definition failure_record (image_path : string) (e : exn) : gmap string value :=
  dict_of [("image_path", VStr image_path);
           ("text", VStr "");
           ("error", VStr (exn_msg e));
           ("success", VBool false)].

(** The [for] loop of [batch_extract_text], from the list [results]
    built so far. *)
Fixpoint batch_loop (image_paths : list string) (prompt : option string)
    (results : list (gmap string value)) : M (list (gmap string value)) :=
  match image_paths with
  | [] => mret results
  | image_path :: rest =>
      results ← try_exceptM
                  (result ← extract_text image_path prompt;
                   mret (results ++ [result]))
                  (fun e => mret (results ++ [failure_record image_path e]));
      batch_loop rest prompt results
  end.

Definition batch_extract_text (image_paths : list string) (prompt : option string)
  : M (list (gmap string value)) :=
  batch_loop image_paths prompt [].

End DeepSeekOCR.

(** ** Upload validation ([app/utils/validation.py]) *)

Module Validation.

(** [str.lower] on ASCII text. *)
Definition lower_char (c : ascii) : ascii :=
  let n := nat_of_ascii c in
  if (65 <=? n)%nat && (n <=? 90)%nat then ascii_of_nat (n + 32) else c.

Fixpoint lower (s : string) : string :=
  match s with
  | EmptyString => EmptyString
  | String c s' => String (lower_char c) (lower s')
  end.

(** The split of [s] at its last dot, if it has one. *)
Fixpoint rsplit_dot (s : string) : option (string * string) :=
  match s with
  | EmptyString => None
  | String c s' =>
      match rsplit_dot s' with
      | Some (h, t) => Some (String c h, t)
      | None => if Ascii.eqb c "." then Some (EmptyString, s') else None
      end
  end.

(** [s.rsplit('.', 1)] *)
Definition rsplit1 (s : string) : list string :=
  match rsplit_dot s with
  | Some (h, t) => [h; t]
  | None => [s]
  end.

(** [header.startswith(signature)] on bytes. *)
Fixpoint startswith (header signature : list byte) : bool :=
  match signature, header with
  | [], _ => true
  | b :: signature', b' :: header' => Byte.eqb b b' && startswith header' signature'
  | _ :: _, [] => false
  end.

(** An uploaded file (werkzeug's [FileStorage]): its client file name
    and its stream, a byte buffer with a read position. *)
Record FileStorage := {
  filename : option string;
  stream : list byte;
  position : nat
}.

(** Calls on the stream of a file: state passing over [FileStorage]. *)
Record IO (A : Type) := mkIO { runIO : FileStorage -> A * FileStorage }.
Arguments mkIO {A} _.
Arguments runIO {A} _ _.

#[global] Instance IO_ret : MRet IO := fun A a => mkIO (fun f => (a, f)).
#[global] Instance IO_bind : MBind IO := fun A B k m =>
  mkIO (fun f => let '(a, f') := runIO m f in runIO (k a) f').

Definition set_position (f : FileStorage) (p : nat) : FileStorage :=
  {| filename := filename f; stream := stream f; position := p |}.

(** [file.seek(offset, whence)] for [whence] 0 (from the start) and 2
    (from the end), with a non-negative target. *)
Definition seek (offset : nat) (whence : nat) : IO unit :=
  mkIO (fun f =>
    (tt, set_position f (if (whence =? 2)%nat then length (stream f) + offset else offset)%nat)).

(** [file.tell()] *)
Definition tell : IO Z := mkIO (fun f => (Z.of_nat (position f), f)).

(** [file.read(n)] *)
Definition read (n : nat) : IO (list byte) :=
  mkIO (fun f =>
    let data := take n (drop (position f) (stream f)) in
    (data, set_position f (position f + length data)%nat)).

Record UploadConfig := {
  max_file_size : Z;
  allowed_extensions : list string
}.

(** The reason carried by a [ValidationError] of [validate_file]:
    - [NoFileProvided]: "No file provided"
    - [FileTypeNotAllowed allowed]: "File type not allowed. Allowed types: ..."
    - [FileTooLarge max_mb]: "File too large. Maximum size: ...MB"
    - [InvalidFileType]: "Invalid file type" *)
Inductive ValidationError :=
| NoFileProvided
| FileTypeNotAllowed (allowed : gset string)
| FileTooLarge (max_mb : Q)
| InvalidFileType.

Inductive raises (A : Type) :=
| Return (a : A)
| Raise (e : ValidationError).
Arguments Return {A} a.
Arguments Raise {A} e.

Record FileValidator := {
  self_allowed_extensions : gset string;
  self_max_file_size : Z
}.

(** [FileValidator.__init__] *)
Definition FileValidator_init (config_upload : UploadConfig) : FileValidator :=
  {| self_allowed_extensions := list_to_set (map lower (allowed_extensions config_upload));
     self_max_file_size := max_file_size config_upload |}.

Definition valid_mime_types : gset string :=
  {[ "image/jpeg"; "image/jpg"; "image/png"; "image/bmp";
     "image/tiff"; "image/webp"; "image/gif";
     "application/pdf" ]}.

Definition JPEG_header : list byte := [xff; xd8; xff].
Definition PNG_header : list byte := [x89; x50; x4e; x47; x0d; x0a; x1a; x0a].
Definition BMP_header : list byte := [x42; x4d].
Definition PDF_header : list byte := [x25; x50; x44; x46].

Section FileValidator.
(** The first component of [mimetypes.guess_type]. *)
Variable guess_type : string -> option string.
Variable self : FileValidator.

Definition _is_allowed_extension (filename : string) : bool :=
  if negb (contains "." filename) then false
  else
    let extension := lower (default EmptyString (rsplit1 filename !! 1%nat)) in
    bool_decide (extension ∈ self_allowed_extensions self).

Definition _is_valid_size : IO bool :=
  seek 0 2;;
  size ← tell;
  seek 0 0;;
  mret (size <=? self_max_file_size self).

Definition _is_valid_mime_type : IO bool :=
  mkIO (fun file =>
    let mime_type := guess_type (default EmptyString (filename file)) in
    if match mime_type with
       | Some m => bool_decide (m ∈ valid_mime_types)
       | None => false
       end
    then (true, file)
    else
      runIO
        (seek 0 0;;
         header ← read 1024;
         seek 0 0;;
         mret (if startswith header JPEG_header then true
               else if startswith header PNG_header then true
               else if startswith header BMP_header then true
               else if startswith header PDF_header then true
               else false))
        file).

Definition validate_file (file : FileStorage) : raises bool * FileStorage :=
  if negb (truthy (default EmptyString (filename file)))
  then (Raise NoFileProvided, file)
  else
    if negb (_is_allowed_extension (default EmptyString (filename file)))
    then (Raise (FileTypeNotAllowed (self_allowed_extensions self)), file)
    else
      let '(ok, file) := runIO _is_valid_size file in
      if negb ok
      then (Raise (FileTooLarge (inject_Z (self_max_file_size self) / (1024 * 1024))%Q), file)
      else
        let '(ok, file) := runIO _is_valid_mime_type file in
        if negb ok
        then (Raise InvalidFileType, file)
        else (Return true, file).

End FileValidator.

End Validation.

(** ** Specification-side definitions

    The definitions below follow the words of the specification, not the
    code; the theorems relate them to the functions above. *)

(** The larger dimension becomes [m]; the other one is scaled by the same
    factor and truncated. *)
Definition scaled_size (wh : Z * Z) (m : Z) : Z * Z :=
  let '(w, h) := wh in
  if w >? h then (m, Z.quot (h * m) w) else (Z.quot (w * m) h, m).

Definition detection_text (d : detection) : string := snd (fst d).
Definition detection_confidence (d : detection) : Q := snd d.

(** A detection passes the 0.3 confidence floor. *)
Definition accepts (d : detection) : bool :=
  if Qlt_le_dec 0.3 (detection_confidence d) then true else false.

(** The accepted detections, in order. *)
Definition accepted (results : list detection) : list detection :=
  List.filter accepts results.

Definition Qsum (l : list Q) : Q := fold_left Qplus l 0%Q.

(** The arithmetic mean of a non-empty list. *)
Definition mean (l : list Q) : Q := (Qsum l / inject_Z (Z.of_nat (length l)))%Q.

(** The method tag of the result that a step produces. *)
Definition method_tag (s : step) : string :=
  match s with
  | LocalModel => "deepseek_local"
  | RemoteAPI => "api_limitation"
  | EasyOCR => "easyocr_fallback"
  | Tesseract => "tesseract_fallback"
  | Placeholder => "demo_mode"
  end.

(** The fixed priority order of the steps. *)
Definition priority_order : list step :=
  [LocalModel; RemoteAPI; EasyOCR; Tesseract; Placeholder].

(** The EasyOCR step yields no result on [image]: the library is missing
    or fails, or no detection passes the floor. *)
Definition easyocr_yields_nothing (engines : Engines) (image : Image) : Prop :=
  match easyocr_readtext engines image with
  | Returned results => accepted results = []
  | Raised _ => True
  end.

(** The Tesseract step yields no result on [image]: the library is missing
    or fails, or it finds only whitespace. *)
Definition tesseract_yields_nothing (engines : Engines) (image : Image) : Prop :=
  match tesseract_image_to_string engines image with
  | Returned extracted_text => strip extracted_text = EmptyString
  | Raised _ => True
  end.

(** What [__init__] establishes: [use_local] is on only with a loaded model
    and tokenizer. *)
Definition well_initialised (self : DeepSeekOCR) : Prop :=
  use_local (model (config self)) = true ->
  model_loaded self = true /\ tokenizer_loaded self = true.

(** The condition of the first branch of [extract_text]. *)
Definition local_branch (self : DeepSeekOCR) : bool :=
  use_local (model (config self)) && model_loaded self && tokenizer_loaded self.

(** The condition of its second branch. *)
Definition api_branch_taken (self : DeepSeekOCR) : bool :=
  negb (local_branch self) &&
  negb (use_local (model (config self))) && truthy (deepseek_api_key (api (config self))).

(** The image handed to the engines: loaded, then preprocessed when
    preprocessing is enabled. *)
Definition prepared_image (lib : Imaging) (self : DeepSeekOCR) (image_path : string)
  : outcome Image :=
  image ← load_image lib (ocr (config self)) image_path;
  if enabled (preprocessing (ocr (config self)))
  then preprocess_image lib (ocr (config self)) image else mret image.

(** The dictionaries returned by the steps, and the metadata added by
    [extract_text]. *)
Definition local_dict (response : string) : gmap string value :=
  dict_of [("text", VStr (strip response));
           ("confidence", VFloat 1);
           ("method", VStr "deepseek_local")].

Definition easyocr_dict (acc : list detection) : gmap string value :=
  let n := Z.of_nat (length acc) in
  dict_of [("text", VStr (strip (join LF (map detection_text acc))));
           ("confidence", VFloat (py_round2 (mean (map detection_confidence acc))));
           ("method", VStr "easyocr_fallback");
           ("note", VStr ("Using EasyOCR - extracted " +:+ str_of_int n +:+ " text segments"));
           ("segments_found", VInt n)].

Definition tesseract_dict (extracted_text : string) : gmap string value :=
  dict_of [("text", VStr (strip extracted_text));
           ("confidence", VFloat 0.7);
           ("method", VStr "tesseract_fallback");
           ("note", VStr "Using Tesseract as fallback OCR engine");
           ("character_count", VInt (Z.of_nat (String.length (strip extracted_text))))].

Definition demo_dict (image : Image) : gmap string value :=
  dict_of [("text", VStr (strip (demo_text image)));
           ("confidence", VFloat 0);
           ("method", VStr "demo_mode");
           ("warning", VStr "Demo mode active - please configure model or API for real OCR")].

Definition metadata (self : DeepSeekOCR) (image_path : string) (image : Image)
  : gmap string value :=
  dict_of [("image_path", VStr image_path);
           ("image_size", VSize (size image));
           ("model_used", VStr (name (model (config self))));
           ("processing_method",
             VStr (if use_local (model (config self)) then "local" else "api"))].

(** The three branches of [extract_text] on a prepared image. *)
Definition dispatch (engines : Engines) (self : DeepSeekOCR) (image : Image)
    (prompt : option string) : M (gmap string value) :=
  if local_branch self then _extract_text_local engines self image prompt
  else if negb (use_local (model (config self))) && truthy (deepseek_api_key (api (config self)))
  then api_branch (_extract_text_api self image prompt)
                  (_extract_text_fallback engines image prompt)
  else _extract_text_fallback engines image prompt.

(** The steps attempted before the fallback chain when the local branch
    is not taken. *)
Definition api_prefix (self : DeepSeekOCR) : list step :=
  if api_branch_taken self then [RemoteAPI] else [].

(** The five ways in which the dispatch on a prepared image ends. *)
Inductive dispatched (engines : Engines) (self : DeepSeekOCR) (image : Image)
    (prompt : option string) : M (gmap string value) -> Prop :=
| by_local response :
    local_branch self = true ->
    local_generate engines image (default default_prompt prompt) = Returned response ->
    dispatched engines self image prompt
      (Run (Returned (local_dict response)) [LocalModel])
| local_failed e :
    local_branch self = true ->
    local_generate engines image (default default_prompt prompt) = Raised e ->
    dispatched engines self image prompt
      (Run (Raised (Exn OCRError ("Local OCR processing failed: " +:+ exn_msg e)))
           [LocalModel])
| by_easyocr results :
    local_branch self = false ->
    easyocr_readtext engines image = Returned results ->
    accepted results <> [] ->
    dispatched engines self image prompt
      (Run (Returned (easyocr_dict (accepted results))) (api_prefix self ++ [EasyOCR]))
| by_tesseract extracted_text :
    local_branch self = false ->
    easyocr_yields_nothing engines image ->
    tesseract_image_to_string engines image = Returned extracted_text ->
    strip extracted_text <> EmptyString ->
    dispatched engines self image prompt
      (Run (Returned (tesseract_dict extracted_text))
           (api_prefix self ++ [EasyOCR; Tesseract]))
| by_placeholder :
    local_branch self = false ->
    easyocr_yields_nothing engines image ->
    tesseract_yields_nothing engines image ->
    dispatched engines self image prompt
      (Run (Returned (demo_dict image))
           (api_prefix self ++ [EasyOCR; Tesseract; Placeholder])).

(** The last character of [s], if any, is not a space. *)
Fixpoint ends_without_space (s : string) : bool :=
  match s with
  | EmptyString => true
  | String c EmptyString => negb (is_space c)
  | String _ s' => ends_without_space s'
  end.

(** The entry of a batch for one path: the result of [extract_text], or
    the failure record when it raises. *)
Definition batch_item (lib : Imaging) (engines : Engines) (self : DeepSeekOCR)
    (prompt : option string) (image_path : string) : gmap string value :=
  match outcome_of (extract_text lib engines self image_path prompt) with
  | Returned d => d
  | Raised e => failure_record image_path e
  end.

(** *** Upload validation, in the words of its description *)

(** [ext] is the part of [filename] after its last dot. *)
Definition extension_of (filename ext : string) : Prop :=
  exists stem, filename = stem +:+ "." +:+ ext /\ contains "." ext = false.

(** The file has a non-empty name. *)
Definition has_name (file : Validation.FileStorage) (filename : string) : Prop :=
  Validation.filename file = Some filename /\ filename <> EmptyString.

(** The lowercased extension is in the allowed set. *)
Definition extension_allowed (self : Validation.FileValidator) (filename : string) : Prop :=
  exists ext, extension_of filename ext /\
              Validation.lower ext ∈ Validation.self_allowed_extensions self.

(** The size in bytes is at most the maximum. *)
Definition size_within_limit (self : Validation.FileValidator)
    (file : Validation.FileStorage) : Prop :=
  Z.of_nat (length (Validation.stream file)) <= Validation.self_max_file_size self.

(** The content begins with the signature of a JPEG, PNG, BMP or PDF file. *)
Definition has_known_signature (content : list byte) : Prop :=
  exists signature rest,
    signature ∈ [Validation.JPEG_header; Validation.PNG_header;
                 Validation.BMP_header; Validation.PDF_header] /\
    content = signature ++ rest.

(** The MIME type guessed from the name is a known one, or the content has
    a known signature. *)
Definition type_recognised (guess_type : string -> option string)
    (file : Validation.FileStorage) (filename : string) : Prop :=
  (exists m, guess_type filename = Some m /\ m ∈ Validation.valid_mime_types) \/
  has_known_signature (Validation.stream file).

Definition acceptable (guess_type : string -> option string)
    (self : Validation.FileValidator) (file : Validation.FileStorage) : Prop :=
  exists filename,
    has_name file filename /\
    extension_allowed self filename /\
    size_within_limit self file /\
    type_recognised guess_type file filename.

(** ** Sample environments

    Concrete files, libraries, engines and configurations, on which the
    functions above are evaluated. *)

Definition white_100 : Image :=
  {| size := (100, 100); mode := "RGB"; format := Some "JPEG"; pixels := [] |}.

Definition poster : Image :=
  {| size := (8000, 6000); mode := "RGBA"; format := Some "PNG"; pixels := [] |}.

(** What [load_image] makes of [poster] under the default configuration. *)
Definition resized_poster : Image :=
  {| size := (4096, 3072); mode := "RGB"; format := None; pixels := [] |}.

(** Two files exist: ["white.jpg"] and ["poster.png"]; OpenCV's denoiser
    is broken. *)
Definition sample_lib : Imaging :=
  {| path_exists := fun p => String.eqb p "white.jpg" || String.eqb p "poster.png";
     image_open := fun p => Returned (if String.eqb p "poster.png" then poster else white_100);
     convert_samples := fun image _ => Returned (pixels image);
     resize_samples := fun image _ => Returned (pixels image);
     clahe_samples := fun image => Returned (pixels image);
     denoise_samples := fun _ => raise RuntimeError "OpenCV error" |}.

(** The defaults of [OCRConfig] and [PreprocessingConfig]. *)
Definition default_ocr_config : OCRConfig :=
  {| max_image_size := 4096;
     preprocessing :=
       {| enabled := true; resize := true; denoise := true; enhance_contrast := true |} |}.

Definition plain_ocr_config : OCRConfig :=
  {| max_image_size := 4096;
     preprocessing :=
       {| enabled := false; resize := true; denoise := true; enhance_contrast := true |} |}.

Definition sample_config (local : bool) (key : string) (o : OCRConfig) : Config :=
  {| model := {| name := "deepseek-vl-7b-chat"; use_local := local;
                 local_path := "./models/deepseek-vl-7b-chat"; precision := "fp16" |};
     api := {| deepseek_api_key := key |};
     ocr := o |}.

(** No model, no key, default preprocessing. *)
Definition bare_ocr : DeepSeekOCR :=
  {| config := sample_config false "" default_ocr_config;
     model_loaded := false; tokenizer_loaded := false |}.

(** No model, no key, preprocessing disabled. *)
Definition plain_ocr : DeepSeekOCR :=
  {| config := sample_config false "" plain_ocr_config;
     model_loaded := false; tokenizer_loaded := false |}.

(** A loaded local model. *)
Definition local_ocr : DeepSeekOCR :=
  {| config := sample_config true "" plain_ocr_config;
     model_loaded := true; tokenizer_loaded := true |}.

(** A hub without the model files, and one that loads them. *)
Definition empty_hub : Transformers :=
  {| model_path_exists := fun _ => false;
     tokenizer_from_pretrained := fun _ => raise RuntimeError "not found";
     model_from_pretrained := fun _ _ => raise RuntimeError "not found";
     model_eval := raise RuntimeError "no model" |}.

Definition full_hub : Transformers :=
  {| model_path_exists := fun _ => true;
     tokenizer_from_pretrained := fun _ => Returned tt;
     model_from_pretrained := fun _ _ => Returned tt;
     model_eval := Returned tt |}.

(** Local mode was requested but the model files are missing: the
    constructor falls back to API mode. *)
Definition api_ocr : DeepSeekOCR :=
  DeepSeekOCR_init empty_hub (sample_config true "test-api-key" plain_ocr_config).

Definition not_installed {A} (module : string) : outcome A :=
  raise ImportError ("No module named '" +:+ module +:+ "'").

(** Neither fallback library is installed. *)
Definition no_engines : Engines :=
  {| local_generate := fun _ _ => raise RuntimeError "no model";
     easyocr_readtext := fun _ => not_installed "easyocr";
     tesseract_image_to_string := fun _ => not_installed "pytesseract" |}.

(** Only Tesseract is installed; it reads [output] on every image. *)
Definition tesseract_only (output : string) : Engines :=
  {| local_generate := fun _ _ => raise RuntimeError "no model";
     easyocr_readtext := fun _ => not_installed "easyocr";
     tesseract_image_to_string := fun _ => Returned output |}.


(** The local model answers [response] on every image. *)
Definition model_answering (response : string) : Engines :=
  {| local_generate := fun _ _ => Returned response;
     easyocr_readtext := fun _ => not_installed "easyocr";
     tesseract_image_to_string := fun _ => not_installed "pytesseract" |}.


Definition hello : string := "Hello World!".

(** The result of [extract_text] on ["white.jpg"] when only Tesseract is
    installed and reads [hello] followed by a line feed. *)
Definition hello_result : gmap string value :=
  dict_update (tesseract_dict (hello +:+ LF)) (metadata plain_ocr "white.jpg" white_100).


(** *** Sample uploads *)

(** [mimetypes.guess_type] restricted to two extensions. *)
Definition sample_guess_type (filename : string) : option string :=
  match Validation.rsplit1 filename !! 1%nat with
  | Some "png" => Some "image/png"
  | Some "txt" => Some "text/plain"
  | _ => None
  end.

Definition sample_validator : Validation.FileValidator :=
  Validation.FileValidator_init
    {| Validation.max_file_size := 52428800;
       Validation.allowed_extensions :=
         ["jpg"; "jpeg"; "png"; "bmp"; "tiff"; "pdf"; "webp"; "gif"] |}.

(** A PDF under an upper-case extension. *)
Definition sample_upload : Validation.FileStorage :=
  {| Validation.filename := Some "report.final.PDF";
     Validation.stream := [x25; x50; x44; x46; x2d; x31; x2e; x37];
     Validation.position := 3 |}.


(** ** Facts on strings *)

Lemma append_nil (b : string) : EmptyString +:+ b = b.
Proof. reflexivity. Qed.

Lemma append_cons (c : ascii) (a b : string) : String c a +:+ b = String c (a +:+ b).
Proof. reflexivity. Qed.

Lemma append_assoc (a b c : string) : (a +:+ b) +:+ c = a +:+ (b +:+ c).
Proof. induction a as [|x a IH]; [done|]. rewrite !append_cons. by f_equal. Qed.

Lemma prefix_append (a b : string) : String.prefix a (a +:+ b) = true.
Proof.
  induction a as [|x a IH]; [by destruct b|].
  rewrite append_cons. cbn. destruct (ascii_dec x x); [done|congruence].
Qed.

Lemma contains_unfold (n h : string) :
  contains n h =
    String.prefix n h ||
    match h with
    | EmptyString => false
    | String _ rest => contains n rest
    end.
Proof. by destruct h. Qed.

Lemma contains_prefix (n h : string) : String.prefix n h = true -> contains n h = true.
Proof. intros H. by rewrite contains_unfold, H. Qed.

Lemma contains_append_r (n a h : string) : contains n h = true -> contains n (a +:+ h) = true.
Proof.
  intros H. induction a as [|x a IH]; [done|].
  rewrite append_cons, contains_unfold, IH. apply orb_true_r.
Qed.

(** A text contains every piece it is assembled from. *)
Lemma contains_infix (n a b : string) : contains n (a +:+ n +:+ b) = true.
Proof. apply contains_append_r, contains_prefix, prefix_append. Qed.

Lemma lstrip_nonspace c s : is_space c = false -> lstrip (String c s) = String c s.
Proof. intros H. cbn. by rewrite H. Qed.

Lemma rstrip_nonempty c s : is_space c = false -> rstrip (String c s) <> EmptyString.
Proof. intros H. cbn. destruct (rstrip s); [by rewrite H|done]. Qed.

Lemma strip_nonempty c s : is_space c = false -> strip (String c s) <> EmptyString.
Proof. intros H. unfold strip. rewrite lstrip_nonspace by done. by apply rstrip_nonempty. Qed.

Lemma rstrip_id s : ends_without_space s = true -> rstrip s = s.
Proof.
  induction s as [|c s IH]; [done|]. cbn.
  destruct s as [|c' s'].
  - cbn. destruct (is_space c); [discriminate|done].
  - intros H. rewrite (IH H). done.
Qed.

Lemma ends_without_space_append (a b : string) :
  b <> EmptyString -> ends_without_space (a +:+ b) = ends_without_space b.
Proof.
  intros Hb. induction a as [|c a IH]; [done|].
  rewrite append_cons. cbn. destruct (a +:+ b) eqn:E; [|done].
  destruct a; [done|discriminate].
Qed.

Lemma strip_id c s :
  is_space c = false -> ends_without_space (String c s) = true ->
  strip (String c s) = String c s.
Proof. intros H1 H2. unfold strip. rewrite lstrip_nonspace by done. by apply rstrip_id. Qed.

(** The placeholder text begins with "O" and ends with "t": [strip] leaves
    it unchanged. *)
Lemma strip_demo_text (image : Image) : strip (demo_text image) = demo_text image.
Proof.
  assert (Hhead : exists r, demo_text_head = String "O" r) by (eexists; vm_compute; reflexivity).
  destruct Hhead as [r Hr].
  assert (Htail : exists pre, demo_text image = String "O" pre +:+ demo_text_tail).
  { unfold demo_text. destruct (size image) as [w h]. rewrite Hr.
    rewrite <- !append_assoc. rewrite !append_cons. eexists. rewrite <- append_cons. reflexivity. }
  destruct Htail as [pre ->]. rewrite append_cons.
  apply strip_id; [done|].
  rewrite <- append_cons, ends_without_space_append; [by vm_compute|by vm_compute].
Qed.

Lemma demo_text_nonempty (image : Image) : strip (demo_text image) <> EmptyString.
Proof.
  rewrite strip_demo_text. unfold demo_text. destruct (size image).
  assert (Hhead : exists r, demo_text_head = String "O" r) by (eexists; vm_compute; reflexivity).
  destruct Hhead as [r ->]. by rewrite append_cons.
Qed.

(** The placeholder text names the dimensions and the mode of the image. *)
Lemma demo_text_describes (image : Image) :
  contains (str_of_int (fst (size image)) +:+ " x " +:+ str_of_int (snd (size image)))
           (demo_text image) = true /\
  contains (mode image) (demo_text image) = true.
Proof.
  unfold demo_text. destruct (size image) as [w h]. cbn [fst snd]. split.
  - rewrite <- (append_assoc " x " (str_of_int h)).
    rewrite <- (append_assoc (str_of_int w) (" x " +:+ str_of_int h)).
    apply contains_infix.
  - do 7 apply contains_append_r. apply contains_prefix, prefix_append.
Qed.

(** ** Facts on rounding and means *)

Lemma round_half_even_bounds (x : Q) (lo hi : Z) :
  (inject_Z lo <= x)%Q -> (x <= inject_Z hi)%Q ->
  lo <= round_half_even x <= hi.
Proof.
  intros Hlo Hhi. unfold round_half_even.
  assert (Hlof : lo <= Qfloor x).
  { rewrite <- (Qfloor_Z lo). by apply Qfloor_resp_le. }
  assert (Hhif : Qfloor x <= hi).
  { rewrite <- (Qfloor_Z hi). by apply Qfloor_resp_le. }
  assert (Hstep : (1 # 2 <= x - inject_Z (Qfloor x))%Q -> Qfloor x + 1 <= hi).
  { intros Hge. apply Z.le_succ_l. rewrite Zlt_Qlt. lra. }
  destruct (x - inject_Z (Qfloor x) ?= 1 # 2)%Q eqn:Hc.
  - apply Qeq_alt in Hc.
    assert (Qfloor x + 1 <= hi) by (apply Hstep; lra).
    destruct (Z.even (Qfloor x)); lia.
  - lia.
  - apply Qgt_alt in Hc.
    assert (Qfloor x + 1 <= hi) by (apply Hstep; lra). lia.
Qed.

Lemma py_round2_unit_interval (x : Q) :
  (0 <= x)%Q -> (x <= 1)%Q -> (0 <= py_round2 x)%Q /\ (py_round2 x <= 1)%Q.
Proof.
  intros H0 H1. unfold py_round2.
  destruct (round_half_even_bounds (x * 100) 0 100) as [Hlo Hhi].
  { change (inject_Z 0) with 0%Q. lra. }
  { change (inject_Z 100) with 100%Q. lra. }
  rewrite Zle_Qle in Hlo, Hhi.
  change (inject_Z 0) with 0%Q in Hlo. change (inject_Z 100) with 100%Q in Hhi.
  split.
  - apply Qle_shift_div_l; lra.
  - apply Qle_shift_div_r; lra.
Qed.

Lemma fold_left_Qplus_bounds (l : list Q) (a : Q) :
  Forall (fun c => (0 <= c)%Q /\ (c <= 1)%Q) l ->
  (a <= fold_left Qplus l a)%Q /\
  (fold_left Qplus l a <= a + inject_Z (Z.of_nat (length l)))%Q.
Proof.
  intros H. revert a. induction H as [|c l [Hc0 Hc1] _ IH]; intros a.
  - cbn [fold_left length]. change (inject_Z (Z.of_nat 0)) with 0%Q. split; lra.
  - cbn [fold_left length]. destruct (IH (a + c)%Q) as [IH1 IH2].
    rewrite Nat2Z.inj_succ, <- Z.add_1_r, inject_Z_plus.
    change (inject_Z 1) with 1%Q. split; lra.
Qed.

Lemma mean_unit_interval (l : list Q) :
  l <> [] -> Forall (fun c => (0 <= c)%Q /\ (c <= 1)%Q) l ->
  (0 <= mean l)%Q /\ (mean l <= 1)%Q.
Proof.
  intros Hne H. unfold mean, Qsum.
  destruct (fold_left_Qplus_bounds l 0 H) as [H1 H2].
  assert (Hn : (0 < inject_Z (Z.of_nat (length l)))%Q).
  { change 0%Q with (inject_Z 0). rewrite <- Zlt_Qlt. destruct l; [done|cbn; lia]. }
  split.
  - apply Qle_shift_div_l; [done|lra].
  - apply Qle_shift_div_r; [done|lra].
Qed.

Lemma accepted_confidences (results : list detection) :
  Forall (fun d => (detection_confidence d <= 1)%Q) results ->
  Forall (fun c => (0 <= c)%Q /\ (c <= 1)%Q) (map detection_confidence (accepted results)).
Proof.
  intros H. induction H as [|d l Hd _ IH]; [constructor|].
  cbn [accepted List.filter]. fold (accepted l). unfold accepts.
  destruct (Qlt_le_dec 0.3 (detection_confidence d)) as [Hlt|Hle]; [|done].
  constructor; [|done]. split; [|done].
  apply Qlt_le_weak. eapply Qlt_trans; [|exact Hlt]. reflexivity.
Qed.






(** ** Facts on the image loader *)

Lemma Qfloor_make (n : Z) (d : positive) : Qfloor (n # d) = n / Z.pos d.
Proof. reflexivity. Qed.

Lemma Qceiling_make (n : Z) (d : positive) : Qceiling (n # d) = - ((- n) / Z.pos d).
Proof. reflexivity. Qed.

Lemma py_int_truediv (a b : Z) :
  b <> 0 -> py_int (inject_Z a / inject_Z b) = Z.quot a b.
Proof.
  intros Hb. unfold py_int, Qle_bool, Qdiv, Qmult, Qinv, inject_Z. simpl Qnum.
  destruct b as [|b|b]; [lia| |]; simpl Qnum; simpl Qden;
    rewrite Pos.mul_1_l, Z.mul_0_l, !Z.mul_1_r.
  - destruct (Z.leb_spec 0 a) as [Ha|Ha].
    + rewrite Qfloor_make. symmetry. apply Z.quot_div_nonneg; lia.
    + rewrite Qceiling_make.
      rewrite <- (Z.opp_involutive a) at 2. rewrite Z.quot_opp_l by lia.
      f_equal. symmetry. apply Z.quot_div_nonneg; lia.
  - change (Z.neg b) with (- Z.pos b). rewrite Z.quot_opp_r by lia.
    replace (a * -1) with (- a) by lia.
    destruct (Z.leb_spec 0 (- a)) as [Ha|Ha].
    + rewrite Qfloor_make. rewrite <- Z.quot_opp_l by lia.
      symmetry. apply Z.quot_div_nonneg; lia.
    + rewrite Qceiling_make, Z.opp_involutive.
      f_equal. symmetry. apply Z.quot_div_nonneg; lia.
Qed.

Section ImageProcessorFacts.
Variable lib : Imaging.
Variable config_ocr : OCRConfig.

Lemma image_resize_returned image new_size image' :
  image_resize lib image new_size = Returned image' ->
  size image' = new_size /\ mode image' = mode image /\
  1 <= fst new_size /\ 1 <= snd new_size.
Proof.
  unfold image_resize.
  destruct (Z.ltb_spec (fst new_size) 1), (Z.ltb_spec (snd new_size) 1); simpl; try discriminate.
  destruct (resize_samples lib image new_size); simpl; [|discriminate].
  intros [= <-]. simpl. repeat split; lia.
Qed.

Lemma _resize_image_returned image m image' :
  _resize_image lib image m = Returned image' ->
  mode image' = mode image /\
  (Z.max (fst (size image)) (snd (size image)) <= m -> image' = image) /\
  (m < Z.max (fst (size image)) (snd (size image)) ->
   size image' = scaled_size (size image) m /\
   1 <= fst (size image') /\ 1 <= snd (size image')).
Proof.
  unfold _resize_image, scaled_size. destruct (size image) as [w h] eqn:Hsz. simpl fst; simpl snd.
  destruct (Z.leb_spec (Z.max w h) m) as [Hle|Hgt].
  - intros [= <-]. split; [done|]. split; [done|lia].
  - destruct (Z.gtb_spec w h) as [Hwh|Hwh]; unfold truediv.
    + destruct (Z.eqb_spec w 0) as [->|Hw]; simpl; [discriminate|].
      intros H. apply image_resize_returned in H as (Hs & Hm & H1 & H2).
      rewrite py_int_truediv in * by done. rewrite Hs. simpl in *.
      split; [done|]. split; [lia|]. intros _. done.
    + destruct (Z.eqb_spec h 0) as [->|Hh]; simpl; [discriminate|].
      intros H. apply image_resize_returned in H as (Hs & Hm & H1 & H2).
      rewrite py_int_truediv in * by done. rewrite Hs. simpl in *.
      split; [done|]. split; [lia|]. intros _. done.
Qed.

Lemma scaled_size_bound w h m :
  m < Z.max w h -> 1 <= fst (scaled_size (w, h) m) -> 1 <= snd (scaled_size (w, h) m) ->
  Z.max (fst (scaled_size (w, h) m)) (snd (scaled_size (w, h) m)) <= m.
Proof.
  unfold scaled_size. destruct (Z.gtb_spec w h) as [Hwh|Hwh]; simpl; intros Hm H1 H2.
  - assert (Z.quot (h * m) w <= m); [|lia].
    destruct (Z.le_gt_cases 0 h).
    + rewrite Z.quot_div_nonneg by nia. apply Z.div_le_upper_bound; nia.
    + assert (Z.quot (h * m) w <= 0); [|lia].
      apply Z.quot_le_upper_bound; nia.
  - assert (Z.quot (w * m) h <= m); [|lia].
    destruct (Z.le_gt_cases 0 w).
    + rewrite Z.quot_div_nonneg by nia. apply Z.div_le_upper_bound; nia.
    + assert (Z.quot (w * m) h <= 0); [|lia].
      apply Z.quot_le_upper_bound; nia.
Qed.

Lemma load_resize_step rgb m image :
  (if Z.max (fst (size rgb)) (snd (size rgb)) >? m
   then _resize_image lib rgb m else mret rgb) = Returned image ->
  mode image = mode rgb /\
  Z.max (fst (size image)) (snd (size image)) <= m /\
  size image =
    if Z.max (fst (size rgb)) (snd (size rgb)) >? m
    then scaled_size (size rgb) m else size rgb.
Proof.
  destruct (Z.gtb_spec (Z.max (fst (size rgb)) (snd (size rgb))) m) as [Hgt|Hle].
  - intros H. apply _resize_image_returned in H as (Hm & _ & H).
    destruct H as (Hs & H1 & H2); [lia|].
    split; [done|]. split; [|done].
    rewrite Hs in *. destruct (size rgb) as [w h].
    apply scaled_size_bound; done.
  - intros [= <-]. done.
Qed.

(** C9: every image returned by [load_image] is in RGB mode and its larger
    dimension is at most [max_image_size]; when the opened file is larger,
    the returned size is the opened size scaled to [max_image_size], the
    other dimension being multiplied by the same factor and truncated
    ([Z.quot]); otherwise the size is unchanged. *)
Theorem load_image_rgb_bounded image_path image :
  load_image lib config_ocr image_path = Returned image ->
  mode image = "RGB" /\
  Z.max (fst (size image)) (snd (size image)) <= max_image_size config_ocr /\
  exists raw, image_open lib image_path = Returned raw /\
    let '(w, h) := size raw in
    let m := max_image_size config_ocr in
    size image =
      if Z.max w h >? m
      then (if w >? h then (m, Z.quot (h * m) w) else (Z.quot (w * m) h, m))
      else (w, h).
Proof.
  unfold load_image, max_size.
  destruct (path_exists lib image_path); simpl; [|discriminate].
  destruct (image_open lib image_path) as [raw|e]; simpl; [|discriminate].
  set (m := max_image_size config_ocr).
  destruct (String.eqb_spec (mode raw) "RGB") as [Hrgb|Hrgb]; simpl.
  - destruct (if Z.max _ _ >? m then _ else _) as [image'|e] eqn:Hstep; simpl; [|discriminate].
    intros [= <-]. apply load_resize_step in Hstep as (Hm & Hb & Hs).
    split; [congruence|]. split; [done|]. exists raw. split; [done|].
    rewrite Hs. unfold scaled_size. by destruct (size raw).
  - unfold image_convert.
    destruct (convert_samples lib raw "RGB") as [px|e]; simpl; [|discriminate].
    destruct (if Z.max _ _ >? m then _ else _) as [image'|e] eqn:Hstep; simpl; [|discriminate].
    intros [= <-].
    apply (load_resize_step (Build_Image (size raw) "RGB" None px)) in Hstep
      as (Hm & Hb & Hs).
    split; [done|]. split; [done|]. exists raw. split; [done|].
    rewrite Hs. simpl. unfold scaled_size. by destruct (size raw).
Qed.

End ImageProcessorFacts.


Lemma easyocr_accumulate_from (results : list detection) tp tc vr :
  fold_left
      (fun '(text_parts, total_confidence, valid_results) '(bbox, text, confidence) =>
         if Qlt_le_dec 0.3 confidence
         then (text_parts ++ [text], (total_confidence + confidence)%Q, valid_results + 1)
         else (text_parts, total_confidence, valid_results))
      results (tp, tc, vr)
  = (tp ++ map detection_text (accepted results),
     fold_left Qplus (map detection_confidence (accepted results)) tc,
     vr + Z.of_nat (length (accepted results))).
Proof.
  revert tp tc vr. induction results as [|[[bbox text] c] results IH]; intros tp tc vr.
  - simpl. by rewrite app_nil_r, Z.add_0_r.
  - cbn [fold_left accepted List.filter]. fold (accepted results).
    unfold accepts. change (detection_confidence (bbox, text, c)) with c.
    destruct (Qlt_le_dec 0.3 c); rewrite IH; [|done].
    rewrite <- app_assoc. cbn. f_equal. lia.
Qed.

Lemma easyocr_accumulate_spec (results : list detection) :
  easyocr_accumulate results =
    (map detection_text (accepted results),
     Qsum (map detection_confidence (accepted results)),
     Z.of_nat (length (accepted results))).
Proof. unfold easyocr_accumulate. by rewrite easyocr_accumulate_from. Qed.

Section Blocks.
Variable lib : Imaging.
Variable engines : Engines.
Variable self : DeepSeekOCR.

Lemma easyocr_block_raised image e :
  easyocr_readtext engines image = Raised e ->
  easyocr_block engines image = Run (Returned None) [EasyOCR].
Proof. intros H. unfold easyocr_block. cbn. by rewrite H. Qed.

Lemma easyocr_block_nothing image results :
  easyocr_readtext engines image = Returned results -> accepted results = [] ->
  easyocr_block engines image = Run (Returned None) [EasyOCR].
Proof.
  intros H Hacc. unfold easyocr_block. cbn. rewrite H. cbn.
  rewrite easyocr_accumulate_spec, Hacc. done.
Qed.

Lemma easyocr_block_accepted image results :
  easyocr_readtext engines image = Returned results -> accepted results <> [] ->
  easyocr_block engines image =
    Run (Returned (Some (easyocr_dict (accepted results)))) [EasyOCR].
Proof.
  intros H Hacc. unfold easyocr_block. cbn. rewrite H. cbn.
  rewrite easyocr_accumulate_spec.
  destruct (accepted results) as [|d acc] eqn:E; [done|].
  rewrite bool_decide_true by done.
  rewrite !length_map.
  destruct (Z.ltb_spec 0 (Z.of_nat (length (d :: acc)))) as [_|Hn]; [|simpl in Hn; lia].
  unfold easyocr_dict, mean. rewrite !length_map. done.
Qed.

Lemma easyocr_yields_nothing_block image :
  easyocr_yields_nothing engines image ->
  easyocr_block engines image = Run (Returned None) [EasyOCR].
Proof.
  unfold easyocr_yields_nothing.
  destruct (easyocr_readtext engines image) eqn:E; intros H.
  - by eapply easyocr_block_nothing.
  - by eapply easyocr_block_raised.
Qed.

Lemma tesseract_block_raised image e :
  tesseract_image_to_string engines image = Raised e ->
  tesseract_block engines image = Run (Returned None) [Tesseract].
Proof. intros H. unfold tesseract_block. cbn. by rewrite H. Qed.

Lemma truthy_true s : truthy s = true <-> s <> EmptyString.
Proof. unfold truthy. destruct (String.eqb_spec s ""); split; intros; done. Qed.

Lemma tesseract_block_text image s :
  tesseract_image_to_string engines image = Returned s ->
  tesseract_block engines image =
    Run (Returned (if truthy (strip s) then Some (tesseract_dict s) else None)) [Tesseract].
Proof.
  intros H. unfold tesseract_block. cbn. rewrite H. cbn.
  by destruct (truthy (strip s)).
Qed.

Lemma tesseract_yields_nothing_block image :
  tesseract_yields_nothing engines image ->
  tesseract_block engines image = Run (Returned None) [Tesseract].
Proof.
  unfold tesseract_yields_nothing.
  destruct (tesseract_image_to_string engines image) eqn:E; intros H.
  - erewrite tesseract_block_text by done. rewrite H. done.
  - by eapply tesseract_block_raised.
Qed.

Lemma _extract_text_demo_run image prompt :
  _extract_text_demo image prompt = Run (Returned (demo_dict image)) [Placeholder].
Proof. reflexivity. Qed.

(** The three ways in which the fallback chain ends. *)
Lemma _extract_text_fallback_cases image prompt :
  (exists results,
     easyocr_readtext engines image = Returned results /\ accepted results <> [] /\
     _extract_text_fallback engines image prompt =
       Run (Returned (easyocr_dict (accepted results))) [EasyOCR]) \/
  (easyocr_yields_nothing engines image /\
   exists s,
     tesseract_image_to_string engines image = Returned s /\ strip s <> EmptyString /\
     _extract_text_fallback engines image prompt =
       Run (Returned (tesseract_dict s)) [EasyOCR; Tesseract]) \/
  (easyocr_yields_nothing engines image /\ tesseract_yields_nothing engines image /\
   _extract_text_fallback engines image prompt =
     Run (Returned (demo_dict image)) [EasyOCR; Tesseract; Placeholder]).
Proof.
  assert (Hnone : easyocr_yields_nothing engines image ->
    (easyocr_yields_nothing engines image /\
     exists s,
       tesseract_image_to_string engines image = Returned s /\ strip s <> EmptyString /\
       _extract_text_fallback engines image prompt =
         Run (Returned (tesseract_dict s)) [EasyOCR; Tesseract]) \/
    (easyocr_yields_nothing engines image /\ tesseract_yields_nothing engines image /\
     _extract_text_fallback engines image prompt =
       Run (Returned (demo_dict image)) [EasyOCR; Tesseract; Placeholder])).
  { intros Hno. unfold _extract_text_fallback.
    rewrite (easyocr_yields_nothing_block _ Hno).
    destruct (tesseract_image_to_string engines image) as [s|e] eqn:Ht.
    - destruct (String.eqb_spec (strip s) "") as [Hs|Hs].
      + right. assert (Hn : tesseract_yields_nothing engines image).
        { unfold tesseract_yields_nothing. by rewrite Ht. }
        rewrite (tesseract_yields_nothing_block _ Hn). done.
      + left. split; [done|]. exists s. split; [done|]. split; [done|].
        rewrite (tesseract_block_text _ _ Ht).
        apply truthy_true in Hs. rewrite Hs. done.
    - right. assert (Hn : tesseract_yields_nothing engines image).
      { unfold tesseract_yields_nothing. by rewrite Ht. }
      rewrite (tesseract_yields_nothing_block _ Hn). done. }
  destruct (easyocr_readtext engines image) as [results|e] eqn:He.
  - destruct (decide (accepted results = [])) as [Hacc|Hacc].
    + right. apply Hnone. unfold easyocr_yields_nothing. by rewrite He.
    + left. exists results. split; [done|]. split; [done|].
      unfold _extract_text_fallback. rewrite (easyocr_block_accepted _ _ He Hacc). done.
  - right. apply Hnone. unfold easyocr_yields_nothing. by rewrite He.
Qed.

Lemma _extract_text_fallback_returns image prompt :
  exists d, outcome_of (_extract_text_fallback engines image prompt) = Returned d.
Proof.
  destruct (_extract_text_fallback_cases image prompt)
    as [(r & _ & _ & ->)|[(_ & s & _ & _ & ->)|(_ & _ & ->)]]; eauto.
Qed.

Lemma _extract_text_api_run image prompt :
  truthy (deepseek_api_key (api (config self))) = true ->
  exists d, _extract_text_api self image prompt = Run (Returned d) [RemoteAPI] /\
            get_is d "method" "api_limitation" = true.
Proof.
  intros H. unfold _extract_text_api. rewrite H. cbn. eexists. split; [done|]. done.
Qed.

Lemma api_branch_raised api_call fallback e :
  outcome_of api_call = Raised e ->
  api_branch api_call fallback =
    Run (outcome_of fallback) (attempts api_call ++ attempts fallback).
Proof.
  destruct api_call as [o t], fallback as [o' t']. cbn. intros ->. reflexivity.
Qed.

Lemma api_branch_limitation api_call fallback d d' :
  outcome_of api_call = Returned d -> get_is d "method" "api_limitation" = true ->
  outcome_of fallback = Returned d' ->
  api_branch api_call fallback =
    Run (Returned d') (attempts api_call ++ attempts fallback).
Proof.
  destruct api_call as [o t], fallback as [o' t']. cbn. intros -> Hd ->.
  unfold api_branch, try_exceptM. cbn. rewrite Hd. reflexivity.
Qed.

End Blocks.

(** ** Laws of the dispatcher monad *)

Lemma M_eta {A} (m : M A) : Run (outcome_of m) (attempts m) = m.
Proof. by destruct m. Qed.

Lemma bind_lift_returned {A B} (a : A) (k : A -> M B) : lift (Returned a) ≫= k = k a.
Proof. unfold mbind, M_bind. cbn. apply M_eta. Qed.

Lemma bind_lift_raised {A B} (e : exn) (k : A -> M B) :
  lift (Raised e) ≫= k = Run (Raised e) [].
Proof. reflexivity. Qed.

Lemma bind_mret {A B} (a : A) (k : A -> M B) : mret a ≫= k = k a.
Proof. apply bind_lift_returned. Qed.

Section Dispatch.
Variable lib : Imaging.
Variable engines : Engines.
Variable self : DeepSeekOCR.

Lemma extract_text_run image_path prompt :
  extract_text lib engines self image_path prompt =
    match prepared_image lib self image_path with
    | Raised e =>
        Run (Raised (Exn OCRError ("Text extraction failed: " +:+ exn_msg e))) []
    | Returned image =>
        let r := dispatch engines self image prompt in
        match outcome_of r with
        | Returned d =>
            Run (Returned (dict_update d (metadata self image_path image))) (attempts r)
        | Raised e =>
            Run (Raised (Exn OCRError ("Text extraction failed: " +:+ exn_msg e)))
                (attempts r)
        end
    end.
Proof.
  unfold extract_text, prepared_image. cbv zeta.
  assert (Hd : forall image,
    try_exceptM
      (result ← dispatch engines self image prompt;
       mret (dict_update result (metadata self image_path image)))
      (fun e => raiseM OCRError ("Text extraction failed: " +:+ exn_msg e)) =
    match outcome_of (dispatch engines self image prompt) with
    | Returned d =>
        Run (Returned (dict_update d (metadata self image_path image)))
            (attempts (dispatch engines self image prompt))
    | Raised e =>
        Run (Raised (Exn OCRError ("Text extraction failed: " +:+ exn_msg e)))
            (attempts (dispatch engines self image prompt))
    end).
  { intros image. destruct (dispatch engines self image prompt) as [[d|e] t];
      cbn; by rewrite ?app_nil_r. }
  destruct (load_image lib (ocr (config self)) image_path) as [image0|e]; [|done].
  rewrite bind_lift_returned. cbn [mbind outcome_bind].
  destruct (enabled (preprocessing (ocr (config self)))).
  - destruct (preprocess_image lib (ocr (config self)) image0) as [image|e]; [|done].
    rewrite bind_lift_returned. apply Hd.
  - rewrite bind_mret. apply Hd.
Qed.

Lemma _extract_text_local_run image prompt :
  local_branch self = true ->
  _extract_text_local engines self image prompt =
    match local_generate engines image (default default_prompt prompt) with
    | Returned response => Run (Returned (local_dict response)) [LocalModel]
    | Raised e =>
        Run (Raised (Exn OCRError ("Local OCR processing failed: " +:+ exn_msg e)))
            [LocalModel]
    end.
Proof.
  unfold local_branch, _extract_text_local. intros H.
  apply andb_prop in H as [H Ht]. apply andb_prop in H as [_ Hm].
  rewrite Hm, Ht. cbn.
  by destruct (local_generate engines image (default default_prompt prompt)).
Qed.

Lemma dispatch_not_local image prompt :
  local_branch self = false ->
  dispatch engines self image prompt =
    Run (outcome_of (_extract_text_fallback engines image prompt))
        (api_prefix self ++ attempts (_extract_text_fallback engines image prompt)).
Proof.
  intros Hl. unfold dispatch, api_prefix, api_branch_taken. rewrite Hl. cbn [negb andb].
  destruct (negb (use_local (model (config self))) &&
            truthy (deepseek_api_key (api (config self)))) eqn:Hapi.
  - apply andb_prop in Hapi as [_ Hkey].
    destruct (_extract_text_api_run self image prompt Hkey) as (d & Hrun & Hd).
    destruct (_extract_text_fallback_returns engines image prompt) as (d' & Hd').
    rewrite (api_branch_limitation _ _ d d'); rewrite ?Hrun; try done.
    by rewrite Hd'.
  - symmetry. apply M_eta.
Qed.

Lemma dispatch_dispatched image prompt :
  dispatched engines self image prompt (dispatch engines self image prompt).
Proof.
  destruct (local_branch self) eqn:Hl.
  - unfold dispatch. rewrite Hl, (_extract_text_local_run _ _ Hl).
    destruct (local_generate engines image (default default_prompt prompt)) eqn:Hg.
    + by apply by_local.
    + by apply local_failed.
  - rewrite (dispatch_not_local _ _ Hl).
    destruct (_extract_text_fallback_cases engines image prompt)
      as [(r & He & Hacc & ->)|[(He & s & Ht & Hs & ->)|(He & Ht & ->)]]; cbn [outcome_of attempts].
    + by apply by_easyocr.
    + by apply by_tesseract.
    + by apply by_placeholder.
Qed.

End Dispatch.

(** ** Upload validation *)

Lemma prefix_dot (s : string) :
  String.prefix "." s = match s with
                        | String c _ => Ascii.eqb c "."
                        | EmptyString => false
                        end.
Proof.
  destruct s as [|c s]; [done|].
  change (String.prefix "." (String c s))
    with (if ascii_dec "." c then String.prefix EmptyString s else false).
  destruct (ascii_dec "." c) as [<-|Hne]; [by destruct s|].
  symmetry. apply Ascii.eqb_neq. congruence.
Qed.

Lemma contains_dot_cons (c : ascii) (s : string) :
  contains "." (String c s) = Ascii.eqb c "." || contains "." s.
Proof. by rewrite contains_unfold, prefix_dot. Qed.

Lemma rsplit_dot_none (s : string) :
  Validation.rsplit_dot s = None <-> contains "." s = false.
Proof.
  induction s as [|c s IH]; [done|].
  rewrite contains_dot_cons. cbn [Validation.rsplit_dot].
  destruct (Validation.rsplit_dot s) as [[h t]|].
  - split; [done|]. intros [_ H]%orb_false_elim. apply IH in H. done.
  - destruct (Ascii.eqb c "."); [done|]. cbn. split; [intros _; by apply IH|done].
Qed.

Lemma rsplit_dot_some (s h t : string) :
  Validation.rsplit_dot s = Some (h, t) ->
  s = h +:+ "." +:+ t /\ contains "." t = false.
Proof.
  revert h. induction s as [|c s IH]; intros h; [done|].
  cbn [Validation.rsplit_dot].
  destruct (Validation.rsplit_dot s) as [[h' t']|] eqn:E.
  - intros [= <- <-]. destruct (IH h' eq_refl) as [-> Ht]. done.
  - destruct (Ascii.eqb_spec c ".") as [->|]; [|done].
    intros [= <- <-]. split; [done|]. by apply rsplit_dot_none.
Qed.

Lemma rsplit_dot_extension (stem ext : string) :
  contains "." ext = false ->
  Validation.rsplit_dot (stem +:+ "." +:+ ext) = Some (stem, ext).
Proof.
  intros Hext. apply rsplit_dot_none in Hext.
  induction stem as [|c stem IH].
  - change (Validation.rsplit_dot (String "." ext) = Some (EmptyString, ext)).
    cbn [Validation.rsplit_dot]. by rewrite Hext.
  - rewrite append_cons. cbn [Validation.rsplit_dot]. by rewrite IH.
Qed.

(** The second item of [rsplit('.', 1)] is the part after the last dot. *)
Lemma extension_of_rsplit (filename ext : string) :
  extension_of filename ext <->
  exists stem, Validation.rsplit_dot filename = Some (stem, ext).
Proof.
  split.
  - intros (stem & -> & Hext). exists stem. by apply rsplit_dot_extension.
  - intros (stem & H). exists stem. by apply rsplit_dot_some.
Qed.

Lemma startswith_prefix (header signature : list byte) :
  Validation.startswith header signature = true <->
  exists rest, header = signature ++ rest.
Proof.
  revert header. induction signature as [|b signature IH]; intros header.
  - split; [intros _; by exists header|by destruct header].
  - destruct header as [|b' header]; cbn [Validation.startswith].
    + split; [done|]. by intros (rest & ?).
    + rewrite andb_true_iff, IH. split.
      * intros [Hb (rest & ->)]. exists rest.
        apply Byte.byte_dec_bl in Hb. by subst.
      * intros (rest & [= <- ->]). split; [|by exists rest].
        by apply Byte.byte_dec_lb.
Qed.

Lemma startswith_take (n : nat) (content signature : list byte) :
  (length signature <= n)%nat ->
  Validation.startswith (take n content) signature =
  Validation.startswith content signature.
Proof.
  revert n content. induction signature as [|b signature IH]; intros n content Hn.
  - by destruct (take n content), content.
  - destruct n as [|n]; [cbn in Hn; lia|].
    destruct content as [|b' content]; [done|].
    cbn [take Validation.startswith]. rewrite IH; [done|cbn in Hn; lia].
Qed.

Section ValidatorFacts.
Variable guess_type : string -> option string.
Variable self : Validation.FileValidator.

Lemma _is_allowed_extension_spec (filename : string) :
  Validation._is_allowed_extension self filename = true <->
  extension_allowed self filename.
Proof.
  unfold Validation._is_allowed_extension, extension_allowed, Validation.rsplit1.
  destruct (Validation.rsplit_dot filename) as [[h t]|] eqn:E.
  - assert (contains "." filename = true) as ->.
    { destruct (contains "." filename) eqn:C; [done|].
      apply rsplit_dot_none in C. congruence. }
    cbn. rewrite bool_decide_eq_true. split.
    + intros H. exists t. split; [|done]. apply extension_of_rsplit. eauto.
    + intros (ext & (stem & Hs)%extension_of_rsplit & H). congruence.
  - assert (contains "." filename = false) as -> by by apply rsplit_dot_none.
    cbn. split; [done|].
    intros (ext & (stem & Hs)%extension_of_rsplit & _). congruence.
Qed.

Lemma _is_valid_size_run (file : Validation.FileStorage) :
  Validation.runIO (Validation._is_valid_size self) file =
    (Z.of_nat (length (Validation.stream file)) <=? Validation.self_max_file_size self,
     Validation.set_position file 0).
Proof. unfold Validation._is_valid_size. cbn. by rewrite Nat.add_0_r. Qed.

Lemma signature_check (content : list byte) :
  (if Validation.startswith (take 1024 content) Validation.JPEG_header then true
   else if Validation.startswith (take 1024 content) Validation.PNG_header then true
   else if Validation.startswith (take 1024 content) Validation.BMP_header then true
   else if Validation.startswith (take 1024 content) Validation.PDF_header then true
   else false) = true <->
  has_known_signature content.
Proof.
  rewrite !startswith_take by (cbn; lia).
  unfold has_known_signature. split.
  - destruct (Validation.startswith content Validation.JPEG_header) eqn:H1.
    { apply startswith_prefix in H1 as [rest ->]. intros _.
      eexists _, rest. split; [|done]. set_solver. }
    destruct (Validation.startswith content Validation.PNG_header) eqn:H2.
    { apply startswith_prefix in H2 as [rest ->]. intros _.
      eexists _, rest. split; [|done]. set_solver. }
    destruct (Validation.startswith content Validation.BMP_header) eqn:H3.
    { apply startswith_prefix in H3 as [rest ->]. intros _.
      eexists _, rest. split; [|done]. set_solver. }
    destruct (Validation.startswith content Validation.PDF_header) eqn:H4; [|done].
    apply startswith_prefix in H4 as [rest ->]. intros _.
    eexists _, rest. split; [|done]. set_solver.
  - intros (signature & rest & Hin & ->).
    assert (Hs : Validation.startswith (signature ++ rest) signature = true)
      by (apply startswith_prefix; eauto).
    rewrite !elem_of_cons, elem_of_nil in Hin.
    destruct Hin as [->|[->|[->|[->|[]]]]]; rewrite Hs;
      repeat match goal with
             | |- context [if ?b then _ else _] => destruct b
             end; done.
Qed.

Lemma _is_valid_mime_type_spec (file : Validation.FileStorage) (filename : string) :
  Validation.filename file = Some filename ->
  fst (Validation.runIO (Validation._is_valid_mime_type guess_type) file) = true <->
  type_recognised guess_type file filename.
Proof.
  intros Hname. unfold Validation._is_valid_mime_type, type_recognised.
  cbn [Validation.runIO]. rewrite Hname.
  change (default EmptyString (Some filename)) with filename.
  assert (Hread :
    fst (Validation.runIO
           (Validation.seek 0 0;;
            header ← Validation.read 1024;
            Validation.seek 0 0;;
            mret (if Validation.startswith header Validation.JPEG_header then true
                  else if Validation.startswith header Validation.PNG_header then true
                  else if Validation.startswith header Validation.BMP_header then true
                  else if Validation.startswith header Validation.PDF_header then true
                  else false)) file) = true <->
    has_known_signature (Validation.stream file)).
  { cbn. apply signature_check. }
  destruct (guess_type filename) as [m|].
  - destruct (bool_decide_reflect (m ∈ Validation.valid_mime_types)) as [Hm|Hm].
    + split; [|done]. intros _. left. eauto.
    + rewrite Hread. split; [by right|].
      intros [(m' & [= <-] & Hm')|H]; done.
  - rewrite Hread. split; [by right|]. intros [(m' & ? & _)|H]; done.
Qed.

End ValidatorFacts.

Section ValidateFile.
Variable guess_type : string -> option string.
Variable self : Validation.FileValidator.

(** The verdict of [validate_file], check by check. *)
Lemma validate_file_verdict (file : Validation.FileStorage) :
  match fst (Validation.validate_file guess_type self file) with
  | Validation.Return b =>
      b = true /\
      exists filename,
        has_name file filename /\ extension_allowed self filename /\
        size_within_limit self file /\ type_recognised guess_type file filename
  | Validation.Raise Validation.NoFileProvided =>
      forall filename, ~ has_name file filename
  | Validation.Raise (Validation.FileTypeNotAllowed allowed) =>
      allowed = Validation.self_allowed_extensions self /\
      exists filename, has_name file filename /\ ~ extension_allowed self filename
  | Validation.Raise (Validation.FileTooLarge max_mb) =>
      max_mb = (inject_Z (Validation.self_max_file_size self) / (1024 * 1024))%Q /\
      exists filename,
        has_name file filename /\ extension_allowed self filename /\
        ~ size_within_limit self file
  | Validation.Raise Validation.InvalidFileType =>
      exists filename,
        has_name file filename /\ extension_allowed self filename /\
        size_within_limit self file /\ ~ type_recognised guess_type file filename
  end.
Proof.
  unfold Validation.validate_file.
  destruct (Validation.filename file) as [filename|] eqn:Hname.
  2: { cbn. intros filename [H _]. congruence. }
  change (default EmptyString (Some filename)) with filename.
  destruct (truthy filename) eqn:Htruthy; cbn [negb].
  2: { cbn. intros filename' [H Hne]. rewrite Hname in H. injection H as <-.
       apply truthy_true in Hne. congruence. }
  assert (Hnamed : has_name file filename).
  { split; [done|]. by apply truthy_true. }
  destruct (Validation._is_allowed_extension self filename) eqn:Hext; cbn [negb].
  2: { cbn. split; [done|]. exists filename. split; [done|].
       rewrite <- _is_allowed_extension_spec. congruence. }
  apply _is_allowed_extension_spec in Hext.
  rewrite _is_valid_size_run.
  unfold size_within_limit.
  destruct (Z.leb_spec (Z.of_nat (length (Validation.stream file)))
              (Validation.self_max_file_size self)) as [Hsize|Hsize]; cbn [negb].
  2: { cbn. split; [done|]. exists filename.
       split; [done|]. split; [done|]. lia. }
  pose proof (_is_valid_mime_type_spec guess_type (Validation.set_position file 0)
                filename Hname) as Hmime.
  destruct (Validation.runIO (Validation._is_valid_mime_type guess_type)
              (Validation.set_position file 0)) as [ok file'].
  cbn [fst] in Hmime. unfold type_recognised in *. cbn [Validation.stream Validation.set_position] in Hmime.
  destruct ok; cbn.
  - split; [done|]. exists filename.
    split; [done|]. split; [done|]. split; [done|]. by apply Hmime.
  - exists filename. split; [done|]. split; [done|]. split; [done|].
    intros H. apply Hmime in H. done.
Qed.

Lemma has_name_unique (file : Validation.FileStorage) (f1 f2 : string) :
  has_name file f1 -> has_name file f2 -> f1 = f2.
Proof. intros [H1 _] [H2 _]. congruence. Qed.

(** C10: [validate_file] returns [True] exactly when the file has a
    non-empty name, the lowercased part of the name after its last dot is
    in the allowed set, its size in bytes is at most the maximum, and its
    guessed MIME type or its leading bytes are those of an image or a PDF.
    In every other case it raises [ValidationError], with the one reason
    of the first check that fails (no file, type not allowed, too large,
    invalid type, in this order); a name without a dot is always
    rejected. *)
Theorem validate_file_accepts_iff (file : Validation.FileStorage) :
  (fst (Validation.validate_file guess_type self file) = Validation.Return true <->
   acceptable guess_type self file) /\
  (~ acceptable guess_type self file <->
   exists reason,
     fst (Validation.validate_file guess_type self file) = Validation.Raise reason) /\
  (forall reason,
     fst (Validation.validate_file guess_type self file) = Validation.Raise reason ->
     match reason with
     | Validation.NoFileProvided => forall filename, ~ has_name file filename
     | Validation.FileTypeNotAllowed allowed =>
         allowed = Validation.self_allowed_extensions self /\
         exists filename, has_name file filename /\ ~ extension_allowed self filename
     | Validation.FileTooLarge max_mb =>
         max_mb = (inject_Z (Validation.self_max_file_size self) / (1024 * 1024))%Q /\
         exists filename,
           has_name file filename /\ extension_allowed self filename /\
           ~ size_within_limit self file
     | Validation.InvalidFileType =>
         exists filename,
           has_name file filename /\ extension_allowed self filename /\
           size_within_limit self file /\ ~ type_recognised guess_type file filename
     end) /\
  (forall filename,
     Validation.filename file = Some filename ->
     contains "." filename = false ->
     fst (Validation.validate_file guess_type self file) =
       Validation.Raise Validation.NoFileProvided \/
     fst (Validation.validate_file guess_type self file) =
       Validation.Raise
         (Validation.FileTypeNotAllowed (Validation.self_allowed_extensions self))).
Proof.
  pose proof (validate_file_verdict file) as Hv.
  assert (Hrej : forall reason,
    fst (Validation.validate_file guess_type self file) = Validation.Raise reason ->
    ~ acceptable guess_type self file).
  { intros reason Hr. rewrite Hr in Hv.
    intros (filename & Hn & He & Hs & Ht).
    destruct reason as [|allowed|max_mb|].
    - by apply (Hv filename).
    - destruct Hv as (_ & f & Hn' & Hne).
      rewrite (has_name_unique _ _ _ Hn' Hn) in Hne. done.
    - destruct Hv as (_ & f & _ & _ & Hns). done.
    - destruct Hv as (f & Hn' & _ & _ & Hnt).
      rewrite (has_name_unique _ _ _ Hn' Hn) in Hnt. done. }
  split; [|split; [|split]].
  - split.
    + intros Hr. rewrite Hr in Hv. destruct Hv as [_ H]. exact H.
    + intros Hacc.
      destruct (fst (Validation.validate_file guess_type self file)) as [b|reason] eqn:Hr.
      * destruct Hv as [-> _]. done.
      * exfalso. by apply (Hrej reason).
  - split.
    + intros Hnacc.
      destruct (fst (Validation.validate_file guess_type self file)) as [b|reason] eqn:Hr.
      * destruct Hv as [_ H]. exfalso. by apply Hnacc.
      * by exists reason.
    + intros [reason Hr]. by apply (Hrej reason).
  - intros reason Hr. rewrite Hr in Hv. exact Hv.
  - intros filename Hname Hdot.
    unfold Validation.validate_file. rewrite Hname.
    change (default EmptyString (Some filename)) with filename.
    destruct (truthy filename); cbn [negb]; [|by left].
    unfold Validation._is_allowed_extension. rewrite Hdot. cbn. by right.
Qed.

End ValidateFile.

Example sample_upload_accepted :
  fst (Validation.validate_file sample_guess_type sample_validator sample_upload)
    = Validation.Return true.
Proof. vm_compute. reflexivity. Qed.

Example upload_without_dot_rejected :
  fst (Validation.validate_file sample_guess_type sample_validator
         {| Validation.filename := Some "README";
            Validation.stream := [x25; x50; x44; x46];
            Validation.position := 0 |})
    = Validation.Raise
        (Validation.FileTypeNotAllowed (Validation.self_allowed_extensions sample_validator)).
Proof. vm_compute. reflexivity. Qed.

(** ** The dispatcher: results of [extract_text] *)

Lemma load_image_rgb_bounded_witness :
  load_image sample_lib default_ocr_config "poster.png" = Returned resized_poster /\
  mode resized_poster = "RGB" /\
  Z.max (fst (size resized_poster)) (snd (size resized_poster))
    <= max_image_size default_ocr_config /\
  exists raw, image_open sample_lib "poster.png" = Returned raw /\
    let '(w, h) := size raw in
    let m := max_image_size default_ocr_config in
    size resized_poster =
      if Z.max w h >? m
      then (if w >? h then (m, Z.quot (h * m) w) else (Z.quot (w * m) h, m))
      else (w, h).
Proof.
  assert (H : load_image sample_lib default_ocr_config "poster.png" = Returned resized_poster)
    by (vm_compute; reflexivity).
  split; [exact H|].
  exact (load_image_rgb_bounded sample_lib default_ocr_config "poster.png" resized_poster H).
Defined.

Section Results.
Variable lib : Imaging.
Variable engines : Engines.
Variable self : DeepSeekOCR.

Lemma lookup_with_metadata (d : gmap string value) image_path image key :
  metadata self image_path image !! key = None ->
  dict_update d (metadata self image_path image) !! key = d !! key.
Proof. intros H. unfold dict_update. by rewrite lookup_union_r. Qed.

(** The outcome of [extract_text] in terms of the five endings of the
    dispatch. *)
Lemma extract_text_cases image_path prompt :
  (exists e,
     prepared_image lib self image_path = Raised e /\
     extract_text lib engines self image_path prompt =
       Run (Raised (Exn OCRError ("Text extraction failed: " +:+ exn_msg e))) []) \/
  (exists image r,
     prepared_image lib self image_path = Returned image /\
     dispatched engines self image prompt r /\
     extract_text lib engines self image_path prompt =
       match outcome_of r with
       | Returned d =>
           Run (Returned (dict_update d (metadata self image_path image))) (attempts r)
       | Raised e =>
           Run (Raised (Exn OCRError ("Text extraction failed: " +:+ exn_msg e)))
               (attempts r)
       end).
Proof.
  rewrite extract_text_run.
  destruct (prepared_image lib self image_path) as [image|e]; [right|left; eauto].
  exists image, (dispatch engines self image prompt).
  split; [done|]. split; [apply dispatch_dispatched|done].
Qed.

(** C1 (as amended): [extract_text] raises exactly when the image cannot be
    loaded or preprocessed, or when the local-model branch is taken and
    the model call fails, and what it raises is an [OCRError] whose
    message starts with "Text extraction failed: ".  In every other case,
    whatever the remote API, EasyOCR and Tesseract do, it returns a
    result. *)
Theorem extract_text_boundary image_path prompt :
  match outcome_of (extract_text lib engines self image_path prompt) with
  | Returned _ =>
      exists image,
        prepared_image lib self image_path = Returned image /\
        (local_branch self = true ->
         exists response,
           local_generate engines image (default default_prompt prompt) = Returned response)
  | Raised e =>
      exn_class_of e = OCRError /\
      ((exists e0,
          prepared_image lib self image_path = Raised e0 /\
          exn_msg e = "Text extraction failed: " +:+ exn_msg e0) \/
       (exists image e0,
          prepared_image lib self image_path = Returned image /\
          local_branch self = true /\
          local_generate engines image (default default_prompt prompt) = Raised e0 /\
          exn_msg e =
            "Text extraction failed: " +:+ "Local OCR processing failed: " +:+ exn_msg e0))
  end /\
  (forall image,
     prepared_image lib self image_path = Returned image ->
     local_branch self = false ->
     exists d, outcome_of (extract_text lib engines self image_path prompt) = Returned d).
Proof.
  destruct (extract_text_cases image_path prompt)
    as [(e & Hp & ->)|(image & r & Hp & Hr & ->)].
  - split; [|intros image Hi; congruence].
    cbn. split; [done|]. left. eauto.
  - destruct Hr as [response Hl Hg|e Hl Hg|results Hl He Ha|s Hl He Ht Hs|Hl He Ht];
      cbn [outcome_of attempts].
    + split; [|intros; eauto]. exists image. split; [done|]. eauto.
    + split; [|intros; congruence].
      split; [done|]. right. exists image, e. done.
    + split; [|intros; eauto]. exists image. split; [done|]. congruence.
    + split; [|intros; eauto]. exists image. split; [done|]. congruence.
    + split; [|intros; eauto]. exists image. split; [done|]. congruence.
Qed.

(** C2 (as amended): a result returned by [extract_text] carries a text, a
    confidence and the method tag of the local model, EasyOCR, Tesseract
    or the placeholder (never of the remote API).  The confidence lies in
    [0,1], provided EasyOCR reports no detection confidence above 1.  On
    the Tesseract and placeholder branches the text is not empty. *)
Theorem extract_text_result_fields image_path prompt d :
  outcome_of (extract_text lib engines self image_path prompt) = Returned d ->
  (forall image results,
     easyocr_readtext engines image = Returned results ->
     Forall (fun det => (detection_confidence det <= 1)%Q) results) ->
  exists t c s,
    d !! "text" = Some (VStr t) /\
    d !! "confidence" = Some (VFloat c) /\
    d !! "method" = Some (VStr (method_tag s)) /\
    (0 <= c)%Q /\ (c <= 1)%Q /\
    s <> RemoteAPI /\
    (s = Tesseract \/ s = Placeholder -> t <> EmptyString).
Proof.
  intros Hret Hconf.
  destruct (extract_text_cases image_path prompt)
    as [(e & Hp & Hx)|(image & r & Hp & Hr & Hx)]; rewrite Hx in Hret; [done|].
  destruct Hr as [response Hl Hg|e Hl Hg|results Hl He Ha|s Hl He Ht Hs|Hl He Ht];
    cbn [outcome_of attempts] in Hret; [|done|..]; injection Hret as <-.
  - exists (strip response), 1%Q, LocalModel.
    repeat split; try done. intros [|]; done.
  - destruct (mean_unit_interval (map detection_confidence (accepted results))) as [Hm0 Hm1].
    { by destruct (accepted results). }
    { apply accepted_confidences. by eapply Hconf. }
    destruct (py_round2_unit_interval _ Hm0 Hm1) as [Hr0 Hr1].
    eexists _, _, EasyOCR. repeat split; try done. intros [|]; done.
  - exists (strip s), 0.7%Q, Tesseract. repeat split; done.
  - exists (strip (demo_text image)), 0%Q, Placeholder.
    repeat split; try done. intros _. apply demo_text_nonempty.
Qed.

End Results.

(** C1, as stated, fails: on a path that does not exist, [extract_text]
    raises [OCRError] past its boundary. *)
Lemma extract_text_raises_on_missing_file :
  outcome_of (extract_text sample_lib no_engines bare_ocr "missing.jpg" None) =
    Raised (Exn OCRError
      "Text extraction failed: Image loading failed: Image file not found: missing.jpg").
Proof. vm_compute. reflexivity. Qed.


(** C2, as stated, fails: a loaded local model that answers with an empty
    string gives a result whose text is empty. *)
Lemma extract_text_empty_text :
  exists d,
    outcome_of (extract_text sample_lib (model_answering "") local_ocr "white.jpg" None)
      = Returned d /\
    d !! "text" = Some (VStr "") /\
    d !! "method" = Some (VStr "deepseek_local").
Proof. eexists. split; [vm_compute; reflexivity|]. split; reflexivity. Qed.

Lemma extract_text_result_fields_witness :
  outcome_of (extract_text sample_lib (tesseract_only (hello +:+ LF)) plain_ocr "white.jpg" None)
    = Returned hello_result /\
  exists t c s,
    hello_result !! "text" = Some (VStr t) /\
    hello_result !! "confidence" = Some (VFloat c) /\
    hello_result !! "method" = Some (VStr (method_tag s)) /\
    (0 <= c)%Q /\ (c <= 1)%Q /\
    s <> RemoteAPI /\
    (s = Tesseract \/ s = Placeholder -> t <> EmptyString).
Proof.
  assert (H : outcome_of (extract_text sample_lib (tesseract_only (hello +:+ LF)) plain_ocr
                            "white.jpg" None) = Returned hello_result)
    by (vm_compute; reflexivity).
  split; [exact H|].
  apply (extract_text_result_fields sample_lib (tesseract_only (hello +:+ LF)) plain_ocr
           "white.jpg" None hello_result H).
  intros image results Hr. discriminate Hr.
Defined.

(** ** The fallback chain *)

Section Fallback.
Variable lib : Imaging.
Variable engines : Engines.
Variable self : DeepSeekOCR.

(** The constructor leaves [use_local] on only when the model and the
    tokenizer are loaded. *)
Lemma DeepSeekOCR_init_well_initialised (hub : Transformers) (cfg : Config) :
  well_initialised (DeepSeekOCR_init hub cfg).
Proof.
  unfold well_initialised, DeepSeekOCR_init, _initialize_model.
  cbn [config model use_local].
  destruct (use_local (model cfg)) eqn:Hlocal; [|cbn; congruence].
  unfold _load_local_model. cbn [config model local_path precision set_tokenizer].
  destruct (model_path_exists hub (local_path (model cfg))); cbn; [|done].
  destruct (tokenizer_from_pretrained hub (local_path (model cfg))); cbn; [|done].
  destruct (model_from_pretrained hub (local_path (model cfg)) (precision (model cfg)));
    cbn; [|done].
  destruct (model_eval hub); cbn; done.
Qed.

(** C3: for an object left by the constructor with no local model loaded
    and with an API key configured, [extract_text] calls the API and then
    continues with the fallback engines; what it returns is the result of
    the fallback chain, not the notice of the API.  More generally the API
    branch hands over to the fallback whenever the API call raises, and
    whenever it answers with the limitation notice. *)
Theorem api_failure_continues_with_fallback image_path prompt image :
  well_initialised self ->
  model_loaded self && tokenizer_loaded self = false ->
  truthy (deepseek_api_key (api (config self))) = true ->
  prepared_image lib self image_path = Returned image ->
  (exists d,
     _extract_text_fallback engines image prompt =
       Run (Returned d) (attempts (_extract_text_fallback engines image prompt)) /\
     extract_text lib engines self image_path prompt =
       Run (Returned (dict_update d (metadata self image_path image)))
           (RemoteAPI :: attempts (_extract_text_fallback engines image prompt)) /\
     get_is d "method" "api_limitation" = false /\
     get_is d "method" "api_error" = false) /\
  (forall api_call fallback e,
     outcome_of api_call = Raised e ->
     api_branch api_call fallback =
       Run (outcome_of fallback) (attempts api_call ++ attempts fallback)) /\
  (forall api_call fallback notice d,
     outcome_of api_call = Returned notice ->
     get_is notice "method" "api_limitation" = true ->
     outcome_of fallback = Returned d ->
     api_branch api_call fallback =
       Run (Returned d) (attempts api_call ++ attempts fallback)).
Proof.
  intros Hinit Hnone Hkey Hp.
  assert (Hlocal : use_local (model (config self)) = false).
  { destruct (use_local (model (config self))) eqn:E; [|done].
    destruct (Hinit E) as [Hm Ht]. by rewrite Hm, Ht in Hnone. }
  assert (Hl : local_branch self = false) by (unfold local_branch; by rewrite Hlocal).
  assert (Hapi : api_prefix self = [RemoteAPI]).
  { unfold api_prefix, api_branch_taken. by rewrite Hl, Hlocal, Hkey. }
  split; [|split].
  - rewrite extract_text_run, Hp. cbv zeta.
    rewrite (dispatch_not_local _ _ _ _ Hl), Hapi. cbn [outcome_of attempts].
    destruct (_extract_text_fallback_cases engines image prompt)
      as [(r & _ & _ & Hf)|[(_ & s & _ & _ & Hf)|(_ & _ & Hf)]];
      rewrite Hf; cbn [outcome_of attempts]; eexists; repeat split; reflexivity.
  - intros api_call fallback e. apply api_branch_raised.
  - intros api_call fallback notice d. apply api_branch_limitation.
Qed.

End Fallback.

Lemma api_failure_continues_with_fallback_witness :
  well_initialised api_ocr /\
  model_loaded api_ocr && tokenizer_loaded api_ocr = false /\
  truthy (deepseek_api_key (api (config api_ocr))) = true /\
  prepared_image sample_lib api_ocr "white.jpg" = Returned white_100 /\
  attempts (extract_text sample_lib (tesseract_only hello) api_ocr "white.jpg" None)
    = [RemoteAPI; EasyOCR; Tesseract].
Proof.
  assert (H0 : well_initialised api_ocr) by (intros H; vm_compute in H; discriminate H).
  assert (H1 : model_loaded api_ocr && tokenizer_loaded api_ocr = false) by reflexivity.
  assert (H2 : truthy (deepseek_api_key (api (config api_ocr))) = true) by reflexivity.
  assert (H3 : prepared_image sample_lib api_ocr "white.jpg" = Returned white_100)
    by (vm_compute; reflexivity).
  split; [exact H0|]. split; [exact H1|]. split; [exact H2|]. split; [exact H3|].
  destruct (api_failure_continues_with_fallback sample_lib (tesseract_only hello) api_ocr
              "white.jpg" None white_100 H0 H1 H2 H3) as [(d & _ & -> & _) _].
  reflexivity.
Defined.

(** ** Batch extraction *)

Section Batch.
Variable lib : Imaging.
Variable engines : Engines.
Variable self : DeepSeekOCR.

(** One turn of the loop appends the entry of its path and never raises. *)
Lemma batch_turn image_path prompt (results : list (gmap string value)) :
  outcome_of
    (try_exceptM
       (result ← extract_text lib engines self image_path prompt;
        mret (results ++ [result]))
       (fun e => mret (results ++ [failure_record image_path e])))
  = Returned (results ++ [batch_item lib engines self prompt image_path]).
Proof.
  unfold batch_item.
  by destruct (extract_text lib engines self image_path prompt) as [[d|e] t].
Qed.

Lemma batch_loop_returns image_paths prompt (results : list (gmap string value)) :
  outcome_of (batch_loop lib engines self image_paths prompt results) =
    Returned (results ++ map (batch_item lib engines self prompt) image_paths).
Proof.
  revert results. induction image_paths as [|image_path rest IH]; intros results.
  - cbn. by rewrite app_nil_r.
  - cbn [batch_loop map].
    pose proof (batch_turn image_path prompt results) as Hturn.
    destruct (try_exceptM _ _) as [o t]. cbn [outcome_of] in Hturn. subst o.
    unfold mbind, M_bind. cbn [outcome_of attempts].
    rewrite IH, <- app_assoc. done.
Qed.

(** C4: [batch_extract_text] always returns, with exactly one entry per
    path and in the order of the paths: the entry at index [i] is the
    result of [extract_text] on the path at index [i] or, when that call
    raises [e], the failure record of that path, with [success] [False]
    and the message of [e] as [error].  An entry depends on its own path
    only. *)
Theorem batch_extract_text_pointwise image_paths prompt :
  exists results,
    outcome_of (batch_extract_text lib engines self image_paths prompt) = Returned results /\
    length results = length image_paths /\
    (forall (i : nat) image_path,
       image_paths !! i = Some image_path ->
       results !! i = Some (batch_item lib engines self prompt image_path)) /\
    (forall image_path e,
       outcome_of (extract_text lib engines self image_path prompt) = Raised e ->
       batch_item lib engines self prompt image_path !! "success" = Some (VBool false) /\
       batch_item lib engines self prompt image_path !! "error" = Some (VStr (exn_msg e)) /\
       batch_item lib engines self prompt image_path !! "image_path" = Some (VStr image_path)) /\
    (forall image_path d,
       outcome_of (extract_text lib engines self image_path prompt) = Returned d ->
       batch_item lib engines self prompt image_path = d).
Proof.
  exists (map (batch_item lib engines self prompt) image_paths).
  split; [apply (batch_loop_returns image_paths prompt [])|].
  split; [apply length_map|].
  split; [|split].
  - intros i image_path Hi. by rewrite list_lookup_fmap, Hi.
  - intros image_path e He. unfold batch_item. rewrite He. done.
  - intros image_path d Hd. unfold batch_item. by rewrite Hd.
Qed.

End Batch.

(** ** The placeholder *)

Section Placeholder.
Variable lib : Imaging.
Variable engines : Engines.
Variable self : DeepSeekOCR.

(** C5 (as amended): when the local-model branch is not taken and neither
    EasyOCR nor Tesseract yields a result, [extract_text] returns the
    placeholder: method tag "demo_mode", confidence 0.0, and a text that
    contains "W x H" and the mode of the image handed to the engines,
    that is of the image as loaded and, when preprocessing is enabled,
    preprocessed.  When that image is 100 by 100 the text contains
    "100 x 100". *)
Theorem placeholder_when_no_engine image_path prompt image :
  prepared_image lib self image_path = Returned image ->
  local_branch self = false ->
  easyocr_yields_nothing engines image ->
  tesseract_yields_nothing engines image ->
  exists d t,
    outcome_of (extract_text lib engines self image_path prompt) = Returned d /\
    d !! "method" = Some (VStr "demo_mode") /\
    d !! "confidence" = Some (VFloat 0) /\
    d !! "text" = Some (VStr t) /\
    d !! "image_size" = Some (VSize (size image)) /\
    contains (str_of_int (fst (size image)) +:+ " x " +:+ str_of_int (snd (size image))) t
      = true /\
    contains (mode image) t = true /\
    (size image = (100, 100) -> contains "100 x 100" t = true).
Proof.
  intros Hp Hl He Ht.
  rewrite extract_text_run, Hp. cbv zeta.
  rewrite (dispatch_not_local _ _ _ _ Hl).
  destruct (_extract_text_fallback_cases engines image prompt)
    as [(r & Her & Hacc & _)|[(_ & s & Hts & Hs & _)|(_ & _ & Hf)]].
  - unfold easyocr_yields_nothing in He. rewrite Her in He. done.
  - unfold tesseract_yields_nothing in Ht. rewrite Hts in Ht. done.
  - rewrite Hf. cbn [outcome_of attempts].
    exists (dict_update (demo_dict image) (metadata self image_path image)),
           (strip (demo_text image)).
    destruct (demo_text_describes image) as [Hdim Hmode].
    rewrite strip_demo_text.
    repeat split; try done.
    + unfold demo_dict. by rewrite strip_demo_text.
    + intros Hsz. rewrite Hsz in Hdim. exact Hdim.
Qed.

End Placeholder.

Lemma placeholder_when_no_engine_witness :
  prepared_image sample_lib plain_ocr "white.jpg" = Returned white_100 /\
  local_branch plain_ocr = false /\
  easyocr_yields_nothing no_engines white_100 /\
  tesseract_yields_nothing no_engines white_100 /\
  exists d t,
    outcome_of (extract_text sample_lib no_engines plain_ocr "white.jpg" None) = Returned d /\
    d !! "method" = Some (VStr "demo_mode") /\
    d !! "confidence" = Some (VFloat 0) /\
    d !! "text" = Some (VStr t) /\
    d !! "image_size" = Some (VSize (size white_100)) /\
    contains (str_of_int (fst (size white_100)) +:+ " x " +:+ str_of_int (snd (size white_100))) t
      = true /\
    contains (mode white_100) t = true /\
    (size white_100 = (100, 100) -> contains "100 x 100" t = true).
Proof.
  assert (H1 : prepared_image sample_lib plain_ocr "white.jpg" = Returned white_100)
    by (vm_compute; reflexivity).
  assert (H2 : local_branch plain_ocr = false) by reflexivity.
  assert (H3 : easyocr_yields_nothing no_engines white_100) by exact I.
  assert (H4 : tesseract_yields_nothing no_engines white_100) by exact I.
  split; [exact H1|]. split; [exact H2|]. split; [exact H3|]. split; [exact H4|].
  exact (placeholder_when_no_engine sample_lib no_engines plain_ocr "white.jpg" None white_100
           H1 H2 H3 H4).
Defined.

(** C5, as stated, fails: under the default configuration a 100 by 100 image
    is enlarged to 1000 by 1000 before the dispatch, and with no engine
    available the placeholder text reports "1000 x 1000"; it does not
    contain "100 x 100". *)
Lemma placeholder_reports_preprocessed_size :
  load_image sample_lib default_ocr_config "white.jpg" = Returned white_100 /\
  size white_100 = (100, 100) /\
  exists d t,
    outcome_of (extract_text sample_lib no_engines bare_ocr "white.jpg" None) = Returned d /\
    d !! "method" = Some (VStr "demo_mode") /\
    d !! "confidence" = Some (VFloat 0) /\
    d !! "image_size" = Some (VSize (1000, 1000)) /\
    d !! "text" = Some (VStr t) /\
    contains "1000 x 1000" t = true /\
    contains "100 x 100" t = false.
Proof.
  split; [vm_compute; reflexivity|]. split; [reflexivity|].
  eexists _, _. split; [vm_compute; reflexivity|].
  repeat split; vm_compute; reflexivity.
Qed.

(** ** The EasyOCR step *)



Section EasyOCRStep.
Variable engines : Engines.


End EasyOCRStep.



(** ** Texts and steps *)

Section Steps.
Variable lib : Imaging.
Variable engines : Engines.
Variable self : DeepSeekOCR.

(** C7 (as amended): the text of the result is the response of the engine
    with leading and trailing whitespace removed, and nothing else is
    changed: [strip] of the answer of the local model, [strip] of the
    output of Tesseract, [strip] of the accepted EasyOCR texts joined by
    line feeds.  A response without outer whitespace is returned
    verbatim: when only Tesseract yields a result and reads
    "Hello World!", the result has text "Hello World!", confidence 0.7
    and method "tesseract_fallback". *)
Theorem engine_text_is_stripped image_path prompt image :
  prepared_image lib self image_path = Returned image ->
  (forall response,
     local_branch self = true ->
     local_generate engines image (default default_prompt prompt) = Returned response ->
     exists d,
       outcome_of (extract_text lib engines self image_path prompt) = Returned d /\
       d !! "text" = Some (VStr (strip response)) /\
       d !! "confidence" = Some (VFloat 1) /\
       d !! "method" = Some (VStr "deepseek_local")) /\
  (forall results,
     local_branch self = false ->
     easyocr_readtext engines image = Returned results ->
     accepted results <> [] ->
     exists d,
       outcome_of (extract_text lib engines self image_path prompt) = Returned d /\
       d !! "text" =
         Some (VStr (strip (join LF (map detection_text (accepted results))))) /\
       d !! "method" = Some (VStr "easyocr_fallback")) /\
  (forall extracted_text,
     local_branch self = false ->
     easyocr_yields_nothing engines image ->
     tesseract_image_to_string engines image = Returned extracted_text ->
     strip extracted_text <> EmptyString ->
     exists d,
       outcome_of (extract_text lib engines self image_path prompt) = Returned d /\
       d !! "text" = Some (VStr (strip extracted_text)) /\
       d !! "confidence" = Some (VFloat 0.7) /\
       d !! "method" = Some (VStr "tesseract_fallback") /\
       (strip extracted_text = extracted_text ->
        d !! "text" = Some (VStr extracted_text))) /\
  (local_branch self = false ->
   easyocr_yields_nothing engines image ->
   tesseract_image_to_string engines image = Returned "Hello World!" ->
   exists d,
     outcome_of (extract_text lib engines self image_path prompt) = Returned d /\
     d !! "text" = Some (VStr "Hello World!") /\
     d !! "confidence" = Some (VFloat 0.7) /\
     d !! "method" = Some (VStr "tesseract_fallback")).
Proof.
  intros Hp.
  assert (Htess : forall extracted_text,
    local_branch self = false ->
    easyocr_yields_nothing engines image ->
    tesseract_image_to_string engines image = Returned extracted_text ->
    strip extracted_text <> EmptyString ->
    outcome_of (extract_text lib engines self image_path prompt) =
      Returned (dict_update (tesseract_dict extracted_text)
                            (metadata self image_path image))).
  { intros s Hl He Ht Hs. rewrite extract_text_run, Hp. cbv zeta.
    rewrite (dispatch_not_local _ _ _ _ Hl).
    destruct (_extract_text_fallback_cases engines image prompt)
      as [(r & Her & Hacc & _)|[(_ & s' & Hts & _ & Hf)|(_ & Hno & _)]].
    - unfold easyocr_yields_nothing in He. rewrite Her in He. done.
    - rewrite Hf. cbn [outcome_of attempts]. congruence.
    - unfold tesseract_yields_nothing in Hno. rewrite Ht in Hno. done. }
  split; [|split; [|split]].
  - intros response Hl Hg. rewrite extract_text_run, Hp. cbv zeta.
    unfold dispatch. rewrite Hl, (_extract_text_local_run _ _ _ _ Hl), Hg.
    cbn [outcome_of attempts]. eexists. repeat split; reflexivity.
  - intros results Hl He Hacc. rewrite extract_text_run, Hp. cbv zeta.
    rewrite (dispatch_not_local _ _ _ _ Hl).
    unfold _extract_text_fallback. rewrite (easyocr_block_accepted _ _ _ He Hacc).
    cbn [outcome_of attempts mbind M_bind try_exceptM].
    eexists. repeat split; reflexivity.
  - intros s Hl He Ht Hs. rewrite (Htess s Hl He Ht Hs).
    eexists. split; [reflexivity|]. repeat split; try reflexivity.
    intros Heq. transitivity (Some (VStr (strip s))); [reflexivity|by rewrite Heq].
  - intros Hl He Ht. rewrite (Htess _ Hl He Ht); [|by vm_compute].
    eexists. repeat split; reflexivity.
Qed.

(** C8: within one call of [extract_text] no engine step is attempted
    twice, the steps are attempted in the fixed priority order, and a
    returned result comes from the last step attempted: nothing is
    attempted after the step that succeeds. *)
Theorem each_step_attempted_at_most_once image_path prompt :
  NoDup (attempts (extract_text lib engines self image_path prompt)) /\
  sublist (attempts (extract_text lib engines self image_path prompt)) priority_order /\
  (forall d,
     outcome_of (extract_text lib engines self image_path prompt) = Returned d ->
     exists s,
       last (attempts (extract_text lib engines self image_path prompt)) = Some s /\
       d !! "method" = Some (VStr (method_tag s))).
Proof.
  destruct (extract_text_cases lib engines self image_path prompt)
    as [(e & Hp & ->)|(image & r & Hp & Hr & ->)].
  - cbn [outcome_of attempts]. split; [constructor|]. split; [apply sublist_nil_l|done].
  - assert (Hatt : forall (m : M (gmap string value)),
      attempts
        match outcome_of m with
        | Returned d =>
            Run (Returned (dict_update d (metadata self image_path image))) (attempts m)
        | Raised e =>
            Run (Raised (Exn OCRError ("Text extraction failed: " +:+ exn_msg e)))
                (attempts m)
        end = attempts m).
    { intros m. by destruct (outcome_of m). }
    rewrite Hatt.
    destruct Hr as [response Hl Hg|e Hl Hg|results Hl He Ha|s Hl He Ht Hs|Hl He Ht];
      cbn [outcome_of attempts]; unfold api_prefix, priority_order;
      destruct (api_branch_taken self); cbn [app];
      (split; [apply (bool_decide_unpack _); by vm_compute|]);
      (split; [repeat constructor|]);
      intros d [= <-]; eexists; split; reflexivity.
Qed.

End Steps.

Lemma engine_text_is_stripped_witness :
  prepared_image sample_lib plain_ocr "white.jpg" = Returned white_100 /\
  exists d,
    outcome_of (extract_text sample_lib (tesseract_only hello) plain_ocr "white.jpg" None)
      = Returned d /\
    d !! "text" = Some (VStr "Hello World!") /\
    d !! "confidence" = Some (VFloat 0.7) /\
    d !! "method" = Some (VStr "tesseract_fallback").
Proof.
  assert (H : prepared_image sample_lib plain_ocr "white.jpg" = Returned white_100)
    by (vm_compute; reflexivity).
  split; [exact H|].
  destruct (engine_text_is_stripped sample_lib (tesseract_only hello) plain_ocr
              "white.jpg" None white_100 H) as (_ & _ & _ & Hhello).
  apply Hhello; [reflexivity|exact I|reflexivity].
Defined.

(** C7, as stated, fails: Tesseract reads "Hello World!" followed by a line
    feed, and the text of the result is "Hello World!" without it. *)
Lemma tesseract_output_is_stripped :
  tesseract_image_to_string (tesseract_only (hello +:+ LF)) white_100
    = Returned (hello +:+ LF) /\
  exists d,
    outcome_of (extract_text sample_lib (tesseract_only (hello +:+ LF)) plain_ocr
                  "white.jpg" None) = Returned d /\
    d !! "text" = Some (VStr hello) /\
    hello <> hello +:+ LF.
Proof.
  split; [reflexivity|]. eexists. split; [vm_compute; reflexivity|].
  split; [vm_compute; reflexivity|]. by vm_compute.
Qed.

(** ** Further properties of the dispatcher *)

Section Construction.
Variable hub : Transformers.
Variable cfg : Config.

(** X1: the constructor changes nothing of the configuration but
    [use_local] (the API and OCR settings, the model name, path and
    precision are as given); it leaves [use_local] on exactly when it was
    on, the model path exists and the tokenizer, the model and
    [model.eval()] all load, and then the model and the tokenizer are both
    loaded. *)
Theorem constructor_keeps_local_mode_only_when_loaded :
  let self := DeepSeekOCR_init hub cfg in
  api (config self) = api cfg /\
  ocr (config self) = ocr cfg /\
  name (model (config self)) = name (model cfg) /\
  local_path (model (config self)) = local_path (model cfg) /\
  precision (model (config self)) = precision (model cfg) /\
  (use_local (model (config self)) = true <->
   use_local (model cfg) = true /\
   model_path_exists hub (local_path (model cfg)) = true /\
   tokenizer_from_pretrained hub (local_path (model cfg)) = Returned tt /\
   model_from_pretrained hub (local_path (model cfg)) (precision (model cfg)) = Returned tt /\
   model_eval hub = Returned tt) /\
  (use_local (model (config self)) = true ->
   model_loaded self = true /\ tokenizer_loaded self = true).
Proof.
  unfold DeepSeekOCR_init, _initialize_model. cbn [config model use_local].
  destruct (use_local (model cfg)) eqn:Hlocal.
  2: { cbn. rewrite Hlocal. repeat split; try done; intros H; by destruct H. }
  unfold _load_local_model. cbn [config model local_path precision set_tokenizer].
  destruct (model_path_exists hub (local_path (model cfg))); cbn.
  2: { repeat split; try done; intros H; by destruct H as (_ & ? & _). }
  destruct (tokenizer_from_pretrained hub (local_path (model cfg))) as [[]|e]; cbn.
  2: { repeat split; try done; intros H; by destruct H as (_ & _ & ? & _). }
  destruct (model_from_pretrained hub (local_path (model cfg)) (precision (model cfg)))
    as [[]|e]; cbn.
  2: { repeat split; try done; intros H; by destruct H as (_ & _ & _ & ? & _). }
  destruct (model_eval hub) as [[]|e]; cbn.
  2: { repeat split; try done; intros H; by destruct H as (_ & _ & _ & _ & ?). }
  rewrite Hlocal. repeat split; done.
Qed.

End Construction.

Section ResultKeys.
Variable lib : Imaging.
Variable engines : Engines.
Variable self : DeepSeekOCR.

(** X2: a result returned by [extract_text] echoes the path it was given
    under "image_path", records the size of the prepared image, the model
    name and the processing method ("local" exactly when [use_local] is
    on), and has neither an "error" nor a "success" key. *)
Theorem extract_text_metadata image_path prompt d :
  outcome_of (extract_text lib engines self image_path prompt) = Returned d ->
  d !! "image_path" = Some (VStr image_path) /\
  (exists image,
     prepared_image lib self image_path = Returned image /\
     d !! "image_size" = Some (VSize (size image))) /\
  d !! "model_used" = Some (VStr (name (model (config self)))) /\
  d !! "processing_method" =
    Some (VStr (if use_local (model (config self)) then "local" else "api")) /\
  d !! "error" = None /\
  d !! "success" = None.
Proof.
  intros Hret.
  destruct (extract_text_cases lib engines self image_path prompt)
    as [(e & Hp & Hx)|(image & r & Hp & Hr & Hx)]; rewrite Hx in Hret; [done|].
  destruct Hr as [response Hl Hg|e Hl Hg|results Hl He Ha|s Hl He Ht Hs|Hl He Ht];
    cbn [outcome_of attempts] in Hret; [|done|..]; injection Hret as <-;
    (split; [done|]); (split; [by exists image|]); repeat split; done.
Qed.

(** X3: in a batch, an entry has the key "error" exactly when
    [extract_text] raised on its path; the callers that test
    ['error' in ocr_result] therefore tell failures from results. *)
Theorem batch_entry_error_iff_raised image_path prompt :
  is_Some (batch_item lib engines self prompt image_path !! "error") <->
  exists e, outcome_of (extract_text lib engines self image_path prompt) = Raised e.
Proof.
  unfold batch_item.
  destruct (outcome_of (extract_text lib engines self image_path prompt)) as [d|e] eqn:Hx.
  - destruct (extract_text_metadata image_path prompt d Hx) as (_ & _ & _ & _ & Herr & _).
    rewrite Herr. split; [by intros [? ?]|by intros [? ?]].
  - split; [eauto|]. intros _. by eexists.
Qed.

(** X4: outside the local-model branch the prompt is ignored: the remote
    API notice that quotes it is discarded, and the fallback engines and
    the placeholder never read it. *)
Theorem prompt_ignored_without_local_model image_path prompt prompt' :
  local_branch self = false ->
  extract_text lib engines self image_path prompt =
  extract_text lib engines self image_path prompt'.
Proof.
  intros Hl. rewrite !extract_text_run.
  destruct (prepared_image lib self image_path) as [image|e]; [|done].
  cbv zeta. rewrite !(dispatch_not_local _ _ _ _ Hl).
  assert (Hf : _extract_text_fallback engines image prompt =
               _extract_text_fallback engines image prompt') by reflexivity.
  by rewrite Hf.
Qed.

End ResultKeys.

Lemma extract_text_metadata_witness :
  outcome_of (extract_text sample_lib (tesseract_only (hello +:+ LF)) plain_ocr "white.jpg" None)
    = Returned hello_result /\
  hello_result !! "image_path" = Some (VStr "white.jpg") /\
  hello_result !! "error" = None.
Proof.
  assert (H : outcome_of (extract_text sample_lib (tesseract_only (hello +:+ LF)) plain_ocr
                            "white.jpg" None) = Returned hello_result)
    by (vm_compute; reflexivity).
  split; [exact H|].
  destruct (extract_text_metadata sample_lib (tesseract_only (hello +:+ LF)) plain_ocr
              "white.jpg" None hello_result H) as (Hp & _ & _ & _ & He & _).
  split; [exact Hp|exact He].
Defined.

Lemma prompt_ignored_without_local_model_witness :
  local_branch plain_ocr = false /\
  extract_text sample_lib (tesseract_only hello) plain_ocr "white.jpg" None =
  extract_text sample_lib (tesseract_only hello) plain_ocr "white.jpg" (Some "Only numbers").
Proof.
  assert (H : local_branch plain_ocr = false) by reflexivity.
  split; [exact H|].
  exact (prompt_ignored_without_local_model sample_lib (tesseract_only hello) plain_ocr
           "white.jpg" None (Some "Only numbers") H).
Defined.

Section EngineCalls.
Variable engines : Engines.
Variable self : DeepSeekOCR.

(** X5: [_extract_text_api] never raises.  With a key it returns the
    limitation notice, which quotes the prompt (the default one when none is
    given); without a key it returns an "api_error" result whose "error" is
    "DeepSeek API key not configured".  The confidence is 0.0 in both. *)
Theorem _extract_text_api_never_raises image prompt :
  exists d t,
    _extract_text_api self image prompt = Run (Returned d) [RemoteAPI] /\
    d !! "confidence" = Some (VFloat 0) /\
    d !! "text" = Some (VStr t) /\
    if truthy (deepseek_api_key (api (config self)))
    then d !! "method" = Some (VStr "api_limitation") /\
         d !! "error" = None /\
         contains (default default_prompt prompt) t = true
    else d !! "method" = Some (VStr "api_error") /\
         d !! "error" = Some (VStr "DeepSeek API key not configured").
Proof.
  unfold _extract_text_api.
  destruct (truthy (deepseek_api_key (api (config self)))); cbn [negb].
  - eexists _, _. split; [reflexivity|]. split; [reflexivity|]. split; [reflexivity|].
    split; [reflexivity|]. split; [reflexivity|].
    apply (contains_infix _ api_notice_head).
  - eexists _, _. split; [reflexivity|]. repeat split; reflexivity.
Qed.

(** X6: [_extract_text_local] raises nothing but [OCRError] with a message
    that starts with "Local OCR processing failed: "; called without a
    loaded model or tokenizer it raises with "Local model not initialized",
    whatever the model would answer.  When it returns, the text is the
    stripped response and the confidence is 1.0. *)
Theorem _extract_text_local_errors image prompt :
  match outcome_of (_extract_text_local engines self image prompt) with
  | Returned d =>
      model_loaded self = true /\ tokenizer_loaded self = true /\
      exists response,
        local_generate engines image (default default_prompt prompt) = Returned response /\
        d !! "text" = Some (VStr (strip response)) /\
        d !! "confidence" = Some (VFloat 1)
  | Raised e =>
      exn_class_of e = OCRError /\
      exists reason,
        exn_msg e = "Local OCR processing failed: " +:+ reason /\
        (model_loaded self && tokenizer_loaded self = false ->
         reason = "Local model not initialized")
  end.
Proof.
  unfold _extract_text_local.
  destruct (model_loaded self), (tokenizer_loaded self); cbn;
    try (split; [done|]; eexists; split; [reflexivity|done]).
  destruct (local_generate engines image (default default_prompt prompt)) as [response|e]; cbn.
  - split; [done|]. split; [done|]. exists response. done.
  - split; [done|]. exists (exn_msg e). split; [done|]. done.
Qed.

End EngineCalls.
